(** * Moderator dashboard (ModDashboard.tsx): a shallow embedding

    The component is glue around a few pieces of logic, and those are what
    is modelled here, block by block, after the TypeScript source:

    - [deriveActions]: the heuristic that scrapes ids out of a report;
    - [reportsQuery] / [strikesQuery]: two fetches that swallow failures;
    - [strikeMutation] / [actionMutation]: the two writes, the second a
      dispatch of a REST call by method name;
    - [issueStrikeFor]: the click handler of the strike button;
    - the [expanded] signal and its toggle.

    A report is [any] in the source, so the embedding works on untyped
    JavaScript values as [JSON.parse] produces them. *)

From Stdlib Require Import List String Ascii Bool Arith.
Import ListNotations.
Open Scope list_scope.
Open Scope string_scope.

Set Warnings "-register-all".

(** ** JavaScript values *)

Module Js.

(** Values reachable from a parsed JSON document, plus [undefined] (the
    result of reading a missing property).  A number is carried as the
    string [Number.prototype.toString] gives for it: the component only
    ever tests a number for truthiness or splices it into a template
    literal, and both are functions of that string ([-0] prints as "0").
    Strings are carried as their UTF-8 bytes.  An object is its list of
    own properties; the first binding of a key is the one that is read. *)
Inductive value : Type :=
| VUndef
| VNull
| VBool (b : bool)
| VNum (shown : string)
| VStr (s : string)
| VArr (items : list value)
| VObj (fields : list (string * value)).

(** What a [throw] carries. *)
Inductive exn : Type :=
| TypeError
| Error (message : string).

(** A computation that may throw. *)
Inductive result (A : Type) : Type :=
| Ok (a : A)
| Throw (e : exn).
Arguments Ok {A} a.
Arguments Throw {A} e.

Definition bind {A B} (c : result A) (k : A -> result B) : result B :=
  match c with
  | Ok a => k a
  | Throw e => Throw e
  end.

Notation "x <- c1 ;; c2" := (bind c1 (fun x => c2))
  (at level 61, c1 at next level, right associativity).
Notation "' pat <- c1 ;; c2" := (bind c1 (fun x => match x with pat => c2 end))
  (at level 61, pat pattern, c1 at next level, right associativity).

(** [v == null], i.e. [v] is [null] or [undefined]. *)
Definition nullish (v : value) : bool :=
  match v with
  | VUndef | VNull => true
  | _ => false
  end.

(** ToBoolean. *)
Definition truthy (v : value) : bool :=
  match v with
  | VUndef | VNull => false
  | VBool b => b
  | VNum shown => negb (shown =? "0") && negb (shown =? "NaN")
  | VStr s => negb (s =? "")
  | VArr _ | VObj _ => true
  end.

(** The [typeof] operator. *)
Definition typeof (v : value) : string :=
  match v with
  | VUndef => "undefined"
  | VNull => "object"
  | VBool _ => "boolean"
  | VNum _ => "number"
  | VStr _ => "string"
  | VArr _ | VObj _ => "object"
  end.

Definition isArray (v : value) : bool :=
  match v with
  | VArr _ => true
  | _ => false
  end.

(** [v === "lit"] for a string literal. *)
Definition is_string (v : value) (lit : string) : bool :=
  match v with
  | VStr s => s =? lit
  | _ => false
  end.

Fixpoint lookup (fields : list (string * value)) (k : string) : option value :=
  match fields with
  | [] => None
  | (k', v) :: rest => if k' =? k then Some v else lookup rest k
  end.

(** Reading property [k] of a value that is not [null] or [undefined].
    The names the component reads ([content], [id], [snapshots], ...) are
    own properties of objects only: no string, number, boolean or array
    has them, and neither has [Object.prototype]. *)
Definition get (v : value) (k : string) : value :=
  match v with
  | VObj fields =>
      match lookup fields k with
      | Some x => x
      | None => VUndef
      end
  | _ => VUndef
  end.

(** [v.k]: a TypeError on [null] and [undefined]. *)
Definition member (v : value) (k : string) : result value :=
  if nullish v then Throw TypeError else Ok (get v k).

(** [v?.k]. *)
Definition opt_member (v : value) (k : string) : value :=
  if nullish v then VUndef else get v k.

(** [a ?? b] where [b] cannot throw. *)
Definition coalesce (a b : value) : value :=
  if nullish a then b else a.

(** ToString, as a template literal applies it.  An object prints through
    [Object.prototype.toString]; when it has an own property [toString] that
    property shadows the method, and as no JSON value is callable the
    conversion ends in a TypeError.  An array prints its elements joined by
    commas, [null] and [undefined] elements as the empty string. *)
Fixpoint ToString (v : value) : result string :=
  match v with
  | VUndef => Ok "undefined"
  | VNull => Ok "null"
  | VBool b => Ok (if b then "true" else "false")
  | VNum shown => Ok shown
  | VStr s => Ok s
  | VArr items =>
      (fix join (l : list value) : result string :=
         match l with
         | [] => Ok ""
         | x :: rest =>
             match (if nullish x then Ok "" else ToString x) with
             | Throw e => Throw e
             | Ok sx =>
                 match rest with
                 | [] => Ok sx
                 | _ :: _ =>
                     match join rest with
                     | Throw e => Throw e
                     | Ok sr => Ok (sx ++ "," ++ sr)
                     end
                 end
             end
         end) items
  | VObj fields =>
      match lookup fields "toString" with
      | Some _ => Throw TypeError
      | None => Ok "[object Object]"
      end
  end.

(** [for (const s of items) body], threading the variables the body
    assigns. *)
Fixpoint for_of {S : Type} (body : S -> value -> result S)
    (items : list value) (st : S) : result S :=
  match items with
  | [] => Ok st
  | s :: rest => st' <- body st s ;; for_of body rest st'
  end.

End Js.

Import Js.

(** ** The regular expression [/channel[:\/]?([\w-]+)/i] *)

Module ChannelRegex.

Definition code (c : ascii) : nat := nat_of_ascii c.

Definition between (lo hi : nat) (c : ascii) : bool :=
  (lo <=? code c)%nat && (code c <=? hi)%nat.

(** Canonicalize of the [i] flag (without [u]): upper-casing, and a
    character beyond ASCII never folds onto an ASCII one. *)
Definition canonicalize (c : ascii) : ascii :=
  if between 97 122 c then ascii_of_nat (code c - 32) else c.

(** [\w] is [A-Za-z0-9_]; the class [[\w-]] adds the dash.  The class is
    closed under [canonicalize], so the [i] flag does not widen it. *)
Definition word_or_dash (c : ascii) : bool :=
  between 65 90 c || between 97 122 c || between 48 57 c
  || (code c =? 95)%nat || (code c =? 45)%nat.

(** [[:\/]]. *)
Definition colon_or_slash (c : ascii) : bool :=
  (code c =? 58)%nat || (code c =? 47)%nat.

(** Matching the literal [lit] at the head of [s], ignoring case; the
    rest of the input on success. *)
Fixpoint literal (lit s : string) : option string :=
  match lit with
  | EmptyString => Some s
  | String p lit' =>
      match s with
      | EmptyString => None
      | String c s' =>
          if Ascii.eqb (canonicalize p) (canonicalize c)
          then literal lit' s' else None
      end
  end.

(** The longest prefix of [s] made of characters in the class. *)
Fixpoint greedy (cls : ascii -> bool) (s : string) : string :=
  match s with
  | EmptyString => EmptyString
  | String c s' => if cls c then String c (greedy cls s') else EmptyString
  end.

(** [([\w-]+)]: greedy, at least one character. *)
Definition group1 (s : string) : option string :=
  match greedy word_or_dash s with
  | EmptyString => None
  | g => Some g
  end.

(** The pattern tried at the head of [s].  [?] is greedy: the separator
    is consumed when it is there, and left where it is when the rest of the
    pattern fails after it. *)
Definition match_here (s : string) : option string :=
  match literal "channel" s with
  | None => None
  | Some rest =>
      match rest with
      | String c rest' =>
          if colon_or_slash c then
            match group1 rest' with
            | Some g => Some g
            | None => group1 rest
            end
          else group1 rest
      | EmptyString => group1 rest
      end
  end.

(** [s.match(re)] then [m[1]]: the leftmost position where the pattern
    matches wins; [None] is the [null] of no match. *)
Fixpoint exec (s : string) : option string :=
  match match_here s with
  | Some g => Some g
  | None =>
      match s with
      | EmptyString => None
      | String _ s' => exec s'
      end
  end.

End ChannelRegex.

(** ** Action derivation (deriveActions, lines 79-134) *)

(** An element of the [actions] array.  A disabled action is pushed
    without [method] and [path]; reading them gives [undefined]. *)
Record action : Type := {
  label : string;
  enabled : bool;
  method : option string;
  path : option string
}.

(** [report?.content?.k1 ?? report?.content?.k2]. *)
Definition content_of (report : value) (k1 k2 : string) : value :=
  coalesce (opt_member (opt_member report "content") k1)
           (opt_member (opt_member report "content") k2).

(** Line 84: [report?.snapshots ?? report?.snapshot]. *)
Definition snapshot_of (report : value) : value :=
  coalesce (opt_member report "snapshots") (opt_member report "snapshot").

(** The entries a [for ... of] visits, once [Array.isArray] has passed. *)
Definition entries (snapshot : value) : list value :=
  match snapshot with
  | VArr items => items
  | _ => []
  end.

(** Lines 92-93, the body of the first loop over the snapshot. *)
Definition scan_ids (st : value * value) (s : value) : result (value * value) :=
  let '(channelId, messageId) := st in
  c <- member s "content" ;;
  channelId <-
    (if truthy (opt_member c "channel_id")
     then c' <- member s "content" ;; member c' "channel_id"
     else Ok channelId) ;;
  c <- member s "content" ;;
  messageId <-
    (if truthy (opt_member c "message_id")
     then (if nullish messageId
           then c' <- member s "content" ;; member c' "message_id"
           else Ok messageId)
     else Ok messageId) ;;
  Ok (channelId, messageId).

(** Lines 87-100: [channelId] and [messageId] as they stand when the
    Remove Message test is reached. *)
Definition channel_and_message (report msg snapshot : value)
  : result (value * value) :=
  let channelId := VUndef in
  let messageId := VUndef in
  messageId <-
    (if truthy msg
     then i <- member msg "id" ;;
          if typeof i =? "string" then member msg "id" else Ok messageId
     else Ok messageId) ;;
  ' (channelId, messageId) <-
    (if truthy snapshot && isArray snapshot
     then for_of scan_ids (entries snapshot) (channelId, messageId)
     else Ok (channelId, messageId)) ;;
  channelId <-
    (if negb (truthy channelId)
        && (typeof (opt_member report "target_display") =? "string")
     then td <- member report "target_display" ;;
          match td with
          | VStr text =>
              match ChannelRegex.exec text with
              | Some g => Ok (VStr g)
              | None => Ok channelId
              end
          | _ => Throw TypeError
          end
     else Ok channelId) ;;
  Ok (channelId, messageId).

(** Lines 102-106. *)
Definition remove_message (channelId messageId : value) : result action :=
  if truthy messageId && truthy channelId
  then c <- ToString channelId ;;
       m <- ToString messageId ;;
       Ok {| label := "Remove Message"; enabled := true;
             method := Some "DELETE";
             path := Some ("/channels/" ++ c ++ "/messages/" ++ m) |}
  else Ok {| label := "Remove Message"; enabled := false;
             method := None; path := None |}.

(** Lines 109-110. *)
Definition server_id (report : value) : result value :=
  let srv := content_of report "Server" "server" in
  if nullish (opt_member srv "id")
  then (if truthy (opt_member report "target_id")
        then t <- member report "type" ;;
             if is_string t "server"
             then member report "target_id" else Ok VUndef
        else Ok VUndef)
  else Ok (opt_member srv "id").

(** Lines 111-115. *)
Definition remove_server (serverId : value) : result action :=
  if truthy serverId
  then s <- ToString serverId ;;
       Ok {| label := "Remove Server"; enabled := true;
             method := Some "DELETE"; path := Some ("/servers/" ++ s) |}
  else Ok {| label := "Remove Server"; enabled := false;
             method := None; path := None |}.

(** Lines 118-119. *)
Definition user_id (report : value) : result value :=
  let user := content_of report "User" "user" in
  if nullish (opt_member user "id")
  then (if is_string (opt_member report "type") "user"
        then member report "target_id" else Ok VUndef)
  else Ok (opt_member user "id").

(** Line 123, the body of the second loop over the snapshot. *)
Definition scan_server (ctxServerId : value) (s : value) : result value :=
  c <- member s "content" ;;
  if truthy (opt_member c "server_id")
  then c' <- member s "content" ;; member c' "server_id"
  else Ok ctxServerId.

(** Lines 121-124. *)
Definition ctx_server_id (snapshot : value) : result value :=
  let ctxServerId := VUndef in
  if truthy snapshot && isArray snapshot
  then for_of scan_server (entries snapshot) ctxServerId
  else Ok ctxServerId.

(** Lines 125-131. *)
Definition kick_and_ban (userId ctxServerId : value) : result (list action) :=
  if truthy userId && truthy ctxServerId
  then s <- ToString ctxServerId ;;
       u <- ToString userId ;;
       s' <- ToString ctxServerId ;;
       u' <- ToString userId ;;
       Ok [ {| label := "Kick from Server"; enabled := true;
               method := Some "DELETE";
               path := Some ("/servers/" ++ s ++ "/members/" ++ u) |};
            {| label := "Ban from Server"; enabled := true;
               method := Some "PUT";
               path := Some ("/servers/" ++ s' ++ "/bans/" ++ u') |} ]
  else Ok [ {| label := "Kick from Server"; enabled := false;
               method := None; path := None |};
            {| label := "Ban from Server"; enabled := false;
               method := None; path := None |} ].

(** The function itself: the blocks above in the order of the source,
    each [actions.push] appending to the result. *)
Definition deriveActions (report : value) : result (list action) :=
  let actions : list action := [] in
  let msg := content_of report "Message" "message" in
  let snapshot := snapshot_of report in
  ' (channelId, messageId) <- channel_and_message report msg snapshot ;;
  a <- remove_message channelId messageId ;;
  let actions := (actions ++ [a])%list in
  serverId <- server_id report ;;
  a <- remove_server serverId ;;
  let actions := (actions ++ [a])%list in
  userId <- user_id report ;;
  ctxServerId <- ctx_server_id snapshot ;;
  pair <- kick_and_ban userId ctxServerId ;;
  let actions := (actions ++ pair)%list in
  Ok actions.

(** The ids as [deriveActions] has them in its local variables. *)
Definition resolved_channel_and_message (report : value)
  : result (value * value) :=
  channel_and_message report (content_of report "Message" "message")
                      (snapshot_of report).

Definition resolved_ctx_server_id (report : value) : result value :=
  ctx_server_id (snapshot_of report).

(** ** Requests, notifications and the handlers around them *)

(** A call on the API client. *)
Inductive request : Type :=
| GET (path : string)
| POST (path : string) (body : value)
| PUT (path : string) (body : value)
| DELETE (path : string).

(** What a handler does that the outside can see, in order. *)
Inductive event : Type :=
| Request (r : request)
| ShowError (e : exn)
| ShowSuccess (message : string)
| Refetch (queryKey : string).

(** An async function: the events it causes, and the value its promise
    resolves to or the error it rejects with. *)
Definition io (A : Type) : Type := (list event * result A)%type.

Module Io.

Definition ret {A} (a : A) : io A := ([], Ok a).

Definition throw {A} (e : exn) : io A := ([], Throw e).

Definition emit (ev : event) : io unit := ([ev], Ok tt).

Definition bind {A B} (c : io A) (k : A -> io B) : io B :=
  match c with
  | (t, Ok a) => let (t', r) := k a in ((t ++ t')%list, r)
  | (t, Throw e) => (t, Throw e)
  end.

(** [try { c } catch (e) { h e }]. *)
Definition try_catch {A} (c : io A) (h : exn -> io A) : io A :=
  match c with
  | (t, Ok a) => (t, Ok a)
  | (t, Throw e) => let (t', r) := h e in ((t ++ t')%list, r)
  end.

End Io.

Notation "x <~ c1 ;; c2" := (Io.bind c1 (fun x => c2))
  (at level 61, c1 at next level, right associativity).

(** The object [useModals()] returns: whether it carries a [showError]
    and a [showSuccess] function.  The handlers call both through [?.]. *)
Record modals : Type := {
  has_showError : bool;
  has_showSuccess : bool
}.

(** The argument of [actionMutation]; an absent [body] is [VUndef]. *)
Record action_data : Type := {
  data_method : string;
  data_path : string;
  data_body : value
}.

(** [String.prototype.toUpperCase] on ASCII text. *)
Fixpoint upper_ascii (s : string) : string :=
  match s with
  | EmptyString => EmptyString
  | String c s' => String (ChannelRegex.canonicalize c) (upper_ascii s')
  end.

Section Handlers.

(** The backend behind [client().api]: what each request resolves to, or
    the error it rejects with. *)
Variable api : request -> result value.

(** [String.prototype.toUpperCase], which maps far more than the ASCII
    letters; the dispatch below is stated for whatever it returns. *)
Variable toUpperCase : string -> string.

Variable ui : modals.

(** The [selectedReason] signal. *)
Variable selectedReason : string.

Definition call (r : request) : io value := ([Request r], api r).

(** Lines 14-22. *)
Definition reportsQuery : io value :=
  Io.try_catch
    (res <~ call (GET "/safety/reports") ;;
     Io.ret (coalesce res (VArr [])))
    (fun _ => Io.ret (VArr [])).

(** Lines 25-32. *)
Definition strikesQuery : io value :=
  Io.try_catch
    (res <~ call (GET "/safety/strikes") ;;
     Io.ret (coalesce res (VArr [])))
    (fun _ => Io.ret (VArr [])).

(** Lines 34-36. *)
Definition strikeMutation (data : value) : io value :=
  call (POST "/safety/strikes" data).

(** Lines 41-52. *)
Definition actionMutation (data : action_data) : io value :=
  let m := toUpperCase (data_method data) in
  if m =? "DELETE" then call (DELETE (data_path data))
  else if m =? "PUT"
  then call (PUT (data_path data) (coalesce (data_body data) (VObj [])))
  else if m =? "POST"
  then call (POST (data_path data) (coalesce (data_body data) (VObj [])))
  else Io.throw (Error "Unsupported method").

(** [showError?.(e)] and [showSuccess?.(message)]. *)
Definition showError (e : exn) : io unit :=
  if has_showError ui then Io.emit (ShowError e) else Io.ret tt.

Definition showSuccess (message : string) : io unit :=
  if has_showSuccess ui then Io.emit (ShowSuccess message) else Io.ret tt.

(** Line 58: [report?.content?.User?.id ?? report?.target_id]. *)
Definition strike_user_id (report : value) : value :=
  coalesce
    (opt_member (opt_member (opt_member report "content") "User") "id")
    (opt_member report "target_id").

(** Lines 57-68. *)
Definition issueStrikeFor (report : value) : io unit :=
  let userId := strike_user_id report in
  if negb (truthy userId)
  then showError (Error "No user id found for this report")
  else
    Io.try_catch
      (_ <~ strikeMutation
              (VObj [("user_id", userId); ("reason", VStr selectedReason)]) ;;
       _ <~ showSuccess "Strike issued" ;;
       _ <~ Io.emit (Refetch "safety_reports") ;;
       Io.emit (Refetch "safety_strikes"))
      (fun e => showError e).

(** Lines 136-146.  The two arguments are the [method] and [path] of an
    action, strings or [undefined]; [!x] holds of [undefined] and of the
    empty string.  The mutation is called without a body. *)
Definition runAction (method path : option string) : io unit :=
  match method, path with
  | Some m, Some p =>
      if (m =? "") || (p =? "")
      then showError (Error "Action not available")
      else
        Io.try_catch
          (_ <~ actionMutation
                  {| data_method := m; data_path := p; data_body := VUndef |} ;;
           _ <~ showSuccess "Action completed" ;;
           _ <~ Io.emit (Refetch "safety_reports") ;;
           Io.emit (Refetch "safety_strikes"))
          (fun e => showError e)
  | _, _ => showError (Error "Action not available")
  end.

(** Line 175, the click handler of an action button. *)
Definition onClick_action (a : action) : io unit :=
  runAction (method a) (path a).

End Handlers.

(** The requests among the events of a handler. *)
Definition requests (t : list event) : list request :=
  flat_map (fun ev => match ev with Request r => [r] | _ => [] end) t.

(** The error notifications among the events of a handler. *)
Definition errors_shown (t : list event) : list exn :=
  flat_map (fun ev => match ev with ShowError e => [e] | _ => [] end) t.

(** The refetches among the events of a handler. *)
Definition refetched (t : list event) : list string :=
  flat_map (fun ev => match ev with Refetch k => [k] | _ => [] end) t.

(** ** Date formatting (formatDate, lines 70-76) *)

Section Formatting.

(** [new Date(s).toLocaleString()]: what it prints depends on the locale
    and the time zone of the browser, so it is left open; it may throw. *)
Variable toLocaleString : value -> result string.

Definition formatDate (s : value) : result value :=
  match (if truthy s
         then d <- toLocaleString s ;; Ok (VStr d)
         else Ok (VStr ""))
  with
  | Ok shown => Ok shown
  | Throw _ => Ok (coalesce s (VStr ""))
  end.

End Formatting.

(** A fetch that failed: it threw, or its response is [null] or absent
    (the case [res ?? []] is there for). *)
Definition failed (fetched : result value) : bool :=
  match fetched with
  | Throw _ => true
  | Ok res => nullish res
  end.

(** ** The [expanded] signal (lines 55 and 173-179) *)

(** [createSignal<string | null>(null)]: the state is one id or [null]. *)
Definition expanded_state : Type := option string.

Definition expanded_initial : expanded_state := None.

(** [expanded() === report.id], for a report whose id is a string. *)
Definition is_expanded (expanded : expanded_state) (id : string) : bool :=
  match expanded with
  | Some e => e =? id
  | None => false
  end.

(** The click handler of the JSON button:
    [setExpanded(expanded() === report.id ? null : report.id)]. *)
Definition setExpanded_click (expanded : expanded_state) (id : string)
  : expanded_state :=
  if is_expanded expanded id then None else Some id.

(** A run of clicks, oldest first. *)
Definition clicks (ids : list string) : expanded_state :=
  fold_left setExpanded_click ids expanded_initial.

(** ** Reports on which [deriveActions] returns *)

(** [s.content?.k] for a snapshot entry [s] that is not [null]. *)
Definition entry_field (s : value) (k : string) : value :=
  opt_member (get s "content") k.

(** No entry of the snapshot array is [null]: the loops read [s.content]
    without a guard, so such an entry ends the function in a TypeError. *)
Definition snapshot_entries_ok (report : value) : bool :=
  forallb (fun s => negb (nullish s)) (entries (snapshot_of report)).

(** No object inside [v] has an own property named [toString]. *)
Fixpoint plain (v : value) : bool :=
  match v with
  | VArr items =>
      (fix all (l : list value) : bool :=
         match l with
         | [] => true
         | x :: rest => plain x && all rest
         end) items
  | VObj fields =>
      (fix all (l : list (string * value)) : bool :=
         match l with
         | [] => true
         | (k, x) :: rest => negb (k =? "toString") && plain x && all rest
         end) fields
  | _ => true
  end.

(** The reports the theorems below speak about. *)
Definition report_ok (report : value) : bool :=
  snapshot_entries_ok report && plain report.

(** The effect of one loop iteration on each variable, for an entry that
    is not [null]. *)
Definition keep_last (k : string) (acc s : value) : value :=
  if truthy (entry_field s k) then entry_field s k else acc.

Definition keep_first (k : string) (acc s : value) : value :=
  if truthy (entry_field s k)
  then (if nullish acc then entry_field s k else acc)
  else acc.

(** Line 89 in closed form: the message id taken from the report's
    content, [undefined] when there is none. *)
Definition message_from_content (msg : value) : value :=
  if truthy msg && (typeof (get msg "id") =? "string")
  then get msg "id" else VUndef.

(** Lines 97-100 in closed form: the channel id after the fallback on
    [target_display]. *)
Definition channel_fallback (report channelId : value) : value :=
  if truthy channelId then channelId
  else
    match opt_member report "target_display" with
    | VStr text =>
        match ChannelRegex.exec text with
        | Some g => VStr g
        | None => channelId
        end
    | _ => channelId
    end.

(** ** What a match of the channel pattern looks like *)

(** Every character of [s] is in the class. *)
Fixpoint all_in (cls : ascii -> bool) (s : string) : bool :=
  match s with
  | EmptyString => true
  | String c s' => cls c && all_in cls s'
  end.

(** [s] is empty or starts with a character outside the class. *)
Definition stops (cls : ascii -> bool) (s : string) : bool :=
  match s with
  | EmptyString => true
  | String c _ => negb (cls c)
  end.

(** A run of [[\w-]+] that cannot be extended: [g] followed by [post]. *)
Definition is_id_run (g post : string) : Prop :=
  g <> "" /\ all_in ChannelRegex.word_or_dash g = true
  /\ stops ChannelRegex.word_or_dash post = true.

(** [kw] is "channel" in some mix of upper and lower case. *)
Definition is_channel_keyword (kw : string) : Prop :=
  upper_ascii kw = "CHANNEL".

(** The optional separator [[:\/]?]. *)
Definition is_separator (sep : string) : Prop :=
  sep = "" \/ sep = ":" \/ sep = "/".

(** No character of [s] is a [c] or a [C], so that no match of the
    pattern starts inside [s]. *)
Definition no_letter_c (s : string) : bool :=
  all_in (fun c => negb (Ascii.eqb (ChannelRegex.canonicalize c) "C"%char)) s.

(** The four actions, all disabled. *)
Definition nothing_available : list action :=
  [ {| label := "Remove Message"; enabled := false;
       method := None; path := None |};
    {| label := "Remove Server"; enabled := false;
       method := None; path := None |};
    {| label := "Kick from Server"; enabled := false;
       method := None; path := None |};
    {| label := "Ban from Server"; enabled := false;
       method := None; path := None |} ].

(** A report that is not an object: [null], [undefined], a boolean, a
    number, a string or an array. *)
Definition not_an_object (v : value) : bool :=
  match v with
  | VObj _ => false
  | _ => true
  end.

(** The properties of a report that [deriveActions] reads. *)
Definition read_by_deriveActions (k : string) : bool :=
  (k =? "content") || (k =? "snapshots") || (k =? "snapshot")
  || (k =? "target_display") || (k =? "target_id") || (k =? "type").

(** ** Sample data *)

(** A snapshot entry [{content: {k: v}}]. *)
Definition entry_with (k : string) (v : value) : value :=
  VObj [("content", VObj [(k, v)])].

(** A message report with two snapshot entries, each naming a channel. *)
Definition report_two_channels : value :=
  VObj [ ("content", VObj [("Message", VObj [("id", VStr "m1")])]);
         ("snapshots", VArr [ entry_with "channel_id" (VStr "first");
                              entry_with "channel_id" (VStr "second") ]) ].

(** A user report whose snapshot entries name a message twice and a
    server twice. *)
Definition report_two_servers : value :=
  VObj [ ("type", VStr "user");
         ("target_id", VStr "u1");
         ("snapshots", VArr [ entry_with "message_id" (VStr "m1");
                              entry_with "server_id" (VStr "s1");
                              entry_with "message_id" (VStr "m2");
                              entry_with "server_id" (VStr "s2") ]) ].

(** A message report that names its channel in [target_display] only. *)
Definition report_display_only : value :=
  VObj [ ("content", VObj [("Message", VObj [("id", VStr "m1")])]);
         ("target_display", VStr "reported in channel:abc123") ].

(** A report with nothing to go by. *)
Definition report_empty : value := VObj [].

(** ** Lemmas on values *)

Section ValueInduction.

Variable P : value -> Prop.
Hypothesis P_undef : P VUndef.
Hypothesis P_null : P VNull.
Hypothesis P_bool : forall b, P (VBool b).
Hypothesis P_num : forall shown, P (VNum shown).
Hypothesis P_str : forall s, P (VStr s).
Hypothesis P_arr : forall items, Forall P items -> P (VArr items).
Hypothesis P_obj :
  forall fields, Forall (fun kv => P (snd kv)) fields -> P (VObj fields).

Fixpoint value_induction (v : value) : P v :=
  match v with
  | VUndef => P_undef
  | VNull => P_null
  | VBool b => P_bool b
  | VNum shown => P_num shown
  | VStr s => P_str s
  | VArr items =>
      P_arr items
        ((fix go (l : list value) : Forall P l :=
            match l with
            | [] => Forall_nil P
            | x :: rest => Forall_cons x (value_induction x) (go rest)
            end) items)
  | VObj fields =>
      P_obj fields
        ((fix go (l : list (string * value))
            : Forall (fun kv => P (snd kv)) l :=
            match l with
            | [] => Forall_nil _
            | kv :: rest =>
                Forall_cons (P := fun kv => P (snd kv)) kv
                  (value_induction (snd kv)) (go rest)
            end) fields)
  end.

End ValueInduction.

Lemma truthy_not_nullish (v : value) : truthy v = true -> nullish v = false.
Proof. destruct v; simpl; congruence. Qed.

Lemma member_opt_member (v : value) (k : string) :
  nullish v = false -> member v k = Ok (opt_member v k).
Proof. unfold member, opt_member. intros ->. reflexivity. Qed.

Lemma opt_member_source (v : value) (k : string) :
  nullish (opt_member v k) = false -> nullish v = false.
Proof. unfold opt_member. destruct (nullish v); simpl; congruence. Qed.

Lemma plain_arr_cons (x : value) (rest : list value) :
  plain (VArr (x :: rest)) = plain x && plain (VArr rest).
Proof. reflexivity. Qed.

Lemma plain_obj_cons (k : string) (x : value) (rest : list (string * value)) :
  plain (VObj ((k, x) :: rest))
  = negb (k =? "toString") && plain x && plain (VObj rest).
Proof. reflexivity. Qed.

Lemma plain_lookup (fields : list (string * value)) (k : string) (x : value) :
  plain (VObj fields) = true -> lookup fields k = Some x -> plain x = true.
Proof.
  induction fields as [|[k' y] rest IH]; simpl lookup; [discriminate|].
  rewrite plain_obj_cons. intros H.
  apply andb_prop in H as [H Hrest]. apply andb_prop in H as [_ Hy].
  destruct (k' =? k); [intros [= <-]; exact Hy | auto].
Qed.

Lemma plain_no_toString (fields : list (string * value)) :
  plain (VObj fields) = true -> lookup fields "toString" = None.
Proof.
  induction fields as [|[k' y] rest IH]; [reflexivity|].
  rewrite plain_obj_cons. intros H.
  apply andb_prop in H as [H Hrest]. apply andb_prop in H as [Hk _].
  simpl. destruct (k' =? "toString"); [discriminate | auto].
Qed.

Lemma plain_get (v : value) (k : string) :
  plain v = true -> plain (get v k) = true.
Proof.
  destruct v; try reflexivity. simpl get. intros H.
  destruct (lookup fields k) eqn:E; [|reflexivity].
  eapply plain_lookup; eauto.
Qed.

Lemma plain_opt_member (v : value) (k : string) :
  plain v = true -> plain (opt_member v k) = true.
Proof.
  unfold opt_member. destruct (nullish v); [reflexivity|]. apply plain_get.
Qed.

Lemma plain_coalesce (a b : value) :
  plain a = true -> plain b = true -> plain (coalesce a b) = true.
Proof. unfold coalesce. destruct (nullish a); auto. Qed.

Lemma plain_content_of (report : value) (k1 k2 : string) :
  plain report = true -> plain (content_of report k1 k2) = true.
Proof.
  intros H. unfold content_of.
  apply plain_coalesce; repeat apply plain_opt_member; exact H.
Qed.

Lemma plain_entry_field (s : value) (k : string) :
  plain s = true -> plain (entry_field s k) = true.
Proof. intros H. apply plain_opt_member, plain_get, H. Qed.

Lemma plain_entries (snapshot : value) :
  plain snapshot = true -> Forall (fun s => plain s = true) (entries snapshot).
Proof.
  destruct snapshot; simpl entries; try constructor.
  induction items as [|x rest IH]; [constructor|].
  rewrite plain_arr_cons. intros H. apply andb_prop in H as [Hx Hr].
  constructor; auto.
Qed.

Lemma ToString_arr_cons (x : value) (rest : list value) :
  ToString (VArr (x :: rest))
  = match (if nullish x then Ok "" else ToString x) with
    | Throw e => Throw e
    | Ok sx =>
        match rest with
        | [] => Ok sx
        | _ :: _ =>
            match ToString (VArr rest) with
            | Throw e => Throw e
            | Ok sr => Ok (sx ++ "," ++ sr)
            end
        end
    end.
Proof. reflexivity. Qed.

(** A plain value always prints. *)
Lemma ToString_plain (v : value) :
  plain v = true -> exists s, ToString v = Ok s.
Proof.
  induction v using value_induction; intros Hp; try (eexists; reflexivity).
  - induction H as [|x rest Hx Hrest IH]; [eexists; reflexivity|].
    rewrite plain_arr_cons in Hp. apply andb_prop in Hp as [Hpx Hpr].
    rewrite ToString_arr_cons.
    destruct (IH Hpr) as [sr ->].
    assert (exists sx, (if nullish x then Ok "" else ToString x) = Ok sx)
      as [sx ->] by (destruct (nullish x); [eexists; reflexivity | auto]).
    destruct rest; eexists; reflexivity.
  - simpl. rewrite (plain_no_toString _ Hp). eexists; reflexivity.
Qed.

(** ** Lemmas on the two loops *)

Lemma entries_ok_Forall (report : value) :
  snapshot_entries_ok report = true ->
  Forall (fun s => nullish s = false) (entries (snapshot_of report)).
Proof.
  unfold snapshot_entries_ok. rewrite forallb_forall, Forall_forall.
  intros H s Hs. apply H in Hs.
  destruct (nullish s); [discriminate|reflexivity].
Qed.

Lemma read_entry_field (s : value) (k : string) :
  truthy (opt_member (get s "content") k) = true ->
  member (get s "content") k = Ok (entry_field s k).
Proof.
  intros H. apply member_opt_member.
  eapply opt_member_source, truthy_not_nullish, H.
Qed.

Lemma scan_ids_entry (s channelId messageId : value) :
  nullish s = false ->
  scan_ids (channelId, messageId) s
  = Ok (keep_last "channel_id" channelId s,
        keep_first "message_id" messageId s).
Proof.
  intros Hs. unfold scan_ids, keep_last, keep_first, member at 1 2 4 5.
  rewrite Hs. cbn [bind]. unfold entry_field at 1 3.
  destruct (truthy (opt_member (get s "content") "channel_id")) eqn:Ec;
    [rewrite (read_entry_field _ _ Ec)|]; cbn [bind];
  (destruct (truthy (opt_member (get s "content") "message_id")) eqn:Em;
    [destruct (nullish messageId); [rewrite (read_entry_field _ _ Em)|]|]);
  reflexivity.
Qed.

Lemma scan_server_entry (s ctxServerId : value) :
  nullish s = false ->
  scan_server ctxServerId s = Ok (keep_last "server_id" ctxServerId s).
Proof.
  intros Hs. unfold scan_server, keep_last, member at 1 2.
  rewrite Hs. cbn [bind]. unfold entry_field at 1.
  destruct (truthy (opt_member (get s "content") "server_id")) eqn:E;
    [rewrite (read_entry_field _ _ E)|]; reflexivity.
Qed.

Lemma for_of_scan_ids (items : list value) (channelId messageId : value) :
  Forall (fun s => nullish s = false) items ->
  for_of scan_ids items (channelId, messageId)
  = Ok (fold_left (keep_last "channel_id") items channelId,
        fold_left (keep_first "message_id") items messageId).
Proof.
  intros H. revert channelId messageId.
  induction H as [|s rest Hs _ IH]; intros; [reflexivity|].
  cbn [for_of fold_left]. rewrite (scan_ids_entry _ _ _ Hs). cbn [bind].
  apply IH.
Qed.

Lemma for_of_scan_server (items : list value) (ctxServerId : value) :
  Forall (fun s => nullish s = false) items ->
  for_of scan_server items ctxServerId
  = Ok (fold_left (keep_last "server_id") items ctxServerId).
Proof.
  intros H. revert ctxServerId.
  induction H as [|s rest Hs _ IH]; intros; [reflexivity|].
  cbn [for_of fold_left]. rewrite (scan_server_entry _ _ Hs). cbn [bind].
  apply IH.
Qed.

(** A loop that assigns on every match ends with the last match. *)
Lemma keep_last_unset (k : string) (items : list value) (acc : value) :
  Forall (fun s => truthy (entry_field s k) = false) items ->
  fold_left (keep_last k) items acc = acc.
Proof.
  intros H. revert acc.
  induction H as [|s rest Hs _ IH]; intros; [reflexivity|].
  cbn [fold_left]. unfold keep_last at 2. rewrite Hs. apply IH.
Qed.

Lemma keep_last_split
    (k : string) (before after : list value) (s acc : value) :
  truthy (entry_field s k) = true ->
  Forall (fun x => truthy (entry_field x k) = false) after ->
  fold_left (keep_last k) (before ++ s :: after)%list acc = entry_field s k.
Proof.
  intros Hs Hafter. rewrite fold_left_app. cbn [fold_left].
  rewrite (keep_last_unset _ _ _ Hafter). unfold keep_last. rewrite Hs.
  reflexivity.
Qed.

(** A loop that assigns through [??] keeps what it has. *)
Lemma keep_first_found (k : string) (items : list value) (acc : value) :
  nullish acc = false -> fold_left (keep_first k) items acc = acc.
Proof.
  intros Hacc. induction items as [|s rest IH]; [reflexivity|].
  cbn [fold_left]. unfold keep_first at 2. rewrite Hacc.
  destruct (truthy (entry_field s k)); exact IH.
Qed.

Lemma keep_first_unset (k : string) (items : list value) (acc : value) :
  Forall (fun s => truthy (entry_field s k) = false) items ->
  fold_left (keep_first k) items acc = acc.
Proof.
  intros H. revert acc.
  induction H as [|s rest Hs _ IH]; intros; [reflexivity|].
  cbn [fold_left]. unfold keep_first at 2. rewrite Hs. apply IH.
Qed.

Lemma keep_first_split
    (k : string) (before after : list value) (s acc : value) :
  nullish acc = true ->
  Forall (fun x => truthy (entry_field x k) = false) before ->
  truthy (entry_field s k) = true ->
  fold_left (keep_first k) (before ++ s :: after)%list acc = entry_field s k.
Proof.
  intros Hacc Hbefore Hs. rewrite fold_left_app. cbn [fold_left].
  rewrite (keep_first_unset _ _ _ Hbefore). unfold keep_first at 2.
  rewrite Hs, Hacc. apply keep_first_found, truthy_not_nullish, Hs.
Qed.

Lemma plain_keep_last (k : string) (items : list value) (acc : value) :
  Forall (fun s => plain s = true) items -> plain acc = true ->
  plain (fold_left (keep_last k) items acc) = true.
Proof.
  intros H. revert acc. induction H as [|s rest Hs _ IH]; intros acc Hacc;
    [exact Hacc|].
  cbn [fold_left]. apply IH. unfold keep_last.
  destruct (truthy (entry_field s k));
    [apply plain_entry_field, Hs | exact Hacc].
Qed.

Lemma plain_keep_first (k : string) (items : list value) (acc : value) :
  Forall (fun s => plain s = true) items -> plain acc = true ->
  plain (fold_left (keep_first k) items acc) = true.
Proof.
  intros H. revert acc. induction H as [|s rest Hs _ IH]; intros acc Hacc;
    [exact Hacc|].
  cbn [fold_left]. apply IH. unfold keep_first.
  destruct (truthy (entry_field s k)); [|exact Hacc].
  destruct (nullish acc); [apply plain_entry_field, Hs | exact Hacc].
Qed.

(** ** Lemmas on the blocks of [deriveActions] *)

Lemma message_from_content_ok (msg : value) :
  (if truthy msg
   then i <- member msg "id" ;;
        if typeof i =? "string" then member msg "id" else Ok VUndef
   else Ok VUndef)
  = Ok (message_from_content msg).
Proof.
  unfold message_from_content. destruct (truthy msg) eqn:E; [|reflexivity].
  unfold member. rewrite (truthy_not_nullish _ E). cbn [bind andb].
  destruct (typeof (get msg "id") =? "string"); reflexivity.
Qed.

Lemma first_loop_ok (snapshot channelId messageId : value) :
  Forall (fun s => nullish s = false) (entries snapshot) ->
  (if truthy snapshot && isArray snapshot
   then for_of scan_ids (entries snapshot) (channelId, messageId)
   else Ok (channelId, messageId))
  = Ok (fold_left (keep_last "channel_id") (entries snapshot) channelId,
        fold_left (keep_first "message_id") (entries snapshot) messageId).
Proof.
  intros H. destruct (truthy snapshot && isArray snapshot) eqn:E.
  - apply for_of_scan_ids, H.
  - destruct snapshot; try reflexivity. discriminate E.
Qed.

Lemma channel_fallback_ok (report channelId : value) :
  (if negb (truthy channelId)
      && (typeof (opt_member report "target_display") =? "string")
   then td <- member report "target_display" ;;
        match td with
        | VStr text =>
            match ChannelRegex.exec text with
            | Some g => Ok (VStr g)
            | None => Ok channelId
            end
        | _ => Throw TypeError
        end
   else Ok channelId)
  = Ok (channel_fallback report channelId).
Proof.
  unfold channel_fallback. destruct (truthy channelId); [reflexivity|].
  cbn [negb andb].
  destruct (opt_member report "target_display") eqn:E; try reflexivity.
  cbn [typeof]. change ("string" =? "string") with true. cbv iota.
  rewrite member_opt_member, E
    by (apply (opt_member_source _ "target_display"); rewrite E; reflexivity).
  cbn [bind]. destruct (ChannelRegex.exec s); reflexivity.
Qed.

Lemma channel_and_message_ok (report msg snapshot : value) :
  Forall (fun s => nullish s = false) (entries snapshot) ->
  channel_and_message report msg snapshot
  = Ok (channel_fallback report
          (fold_left (keep_last "channel_id") (entries snapshot) VUndef),
        fold_left (keep_first "message_id") (entries snapshot)
          (message_from_content msg)).
Proof.
  intros H. unfold channel_and_message.
  rewrite message_from_content_ok. cbn [bind].
  rewrite (first_loop_ok _ _ _ H). cbn [bind].
  rewrite channel_fallback_ok. reflexivity.
Qed.

Lemma ctx_server_id_ok (snapshot : value) :
  Forall (fun s => nullish s = false) (entries snapshot) ->
  ctx_server_id snapshot
  = Ok (fold_left (keep_last "server_id") (entries snapshot) VUndef).
Proof.
  intros H. unfold ctx_server_id.
  destruct (truthy snapshot && isArray snapshot) eqn:E.
  - apply for_of_scan_server, H.
  - destruct snapshot; try reflexivity. discriminate E.
Qed.

Lemma plain_channel_fallback (report channelId : value) :
  plain report = true -> plain channelId = true ->
  plain (channel_fallback report channelId) = true.
Proof.
  intros Hr Hc. unfold channel_fallback.
  destruct (truthy channelId); [exact Hc|].
  destruct (opt_member report "target_display"); try exact Hc.
  destruct (ChannelRegex.exec s); [reflexivity | exact Hc].
Qed.

Lemma plain_message_from_content (msg : value) :
  plain msg = true -> plain (message_from_content msg) = true.
Proof.
  intros H. unfold message_from_content.
  destruct (truthy msg && (typeof (get msg "id") =? "string"));
    [apply plain_get, H | reflexivity].
Qed.

Lemma server_id_returns (report : value) :
  exists serverId,
    server_id report = Ok serverId
    /\ (plain report = true -> plain serverId = true).
Proof.
  unfold server_id.
  destruct (nullish (opt_member (content_of report "Server" "server") "id")).
  - destruct (truthy (opt_member report "target_id")) eqn:E.
    + assert (Hr : nullish report = false)
        by (eapply opt_member_source, truthy_not_nullish, E).
      rewrite !member_opt_member by exact Hr. cbn [bind].
      destruct (is_string (opt_member report "type") "server");
        eexists; split; try reflexivity; intros; try reflexivity.
      now apply plain_opt_member.
    + eexists; split; reflexivity.
  - eexists; split; [reflexivity|]. intros H.
    now apply plain_opt_member, plain_content_of.
Qed.

Lemma user_id_returns (report : value) :
  exists userId,
    user_id report = Ok userId
    /\ (plain report = true -> plain userId = true).
Proof.
  unfold user_id.
  destruct (nullish (opt_member (content_of report "User" "user") "id")).
  - destruct (is_string (opt_member report "type") "user") eqn:E.
    + assert (Hr : nullish report = false).
      { apply (opt_member_source _ "type").
        destruct (opt_member report "type"); try discriminate E. reflexivity. }
      rewrite member_opt_member by exact Hr.
      eexists; split; [reflexivity|]. intros. now apply plain_opt_member.
    + eexists; split; reflexivity.
  - eexists; split; [reflexivity|]. intros H.
    now apply plain_opt_member, plain_content_of.
Qed.

(** What the Remove Message block pushes. *)
Lemma remove_message_spec (channelId messageId : value) (a : action) :
  remove_message channelId messageId = Ok a ->
  label a = "Remove Message"
  /\ (enabled a = true <-> truthy messageId = true /\ truthy channelId = true)
  /\ (enabled a = true ->
      method a = Some "DELETE"
      /\ exists c m, ToString channelId = Ok c /\ ToString messageId = Ok m
           /\ path a = Some ("/channels/" ++ c ++ "/messages/" ++ m))
  /\ (enabled a = false -> method a = None /\ path a = None).
Proof.
  unfold remove_message.
  destruct (truthy messageId) eqn:Em, (truthy channelId) eqn:Ec; cbn [andb];
    try (intros [= <-]; cbn; intuition congruence).
  destruct (ToString channelId) as [c|] eqn:Tc; [|discriminate].
  destruct (ToString messageId) as [m|] eqn:Tm; [|discriminate].
  cbn [bind]. intros [= <-]. cbn. repeat split; try congruence.
  exists c, m. auto.
Qed.

Lemma remove_message_returns (channelId messageId : value) :
  plain channelId = true -> plain messageId = true ->
  exists a, remove_message channelId messageId = Ok a.
Proof.
  intros Hc Hm. unfold remove_message.
  destruct (ToString_plain _ Hc) as [c ->], (ToString_plain _ Hm) as [m ->].
  destruct (truthy messageId && truthy channelId); eexists; reflexivity.
Qed.

(** What the Remove Server block pushes. *)
Lemma remove_server_spec (serverId : value) (a : action) :
  remove_server serverId = Ok a ->
  label a = "Remove Server"
  /\ (enabled a = true <-> truthy serverId = true)
  /\ (enabled a = true ->
      method a = Some "DELETE"
      /\ exists s, ToString serverId = Ok s /\ path a = Some ("/servers/" ++ s))
  /\ (enabled a = false -> method a = None /\ path a = None).
Proof.
  unfold remove_server. destruct (truthy serverId) eqn:E;
    try (intros [= <-]; cbn; intuition congruence).
  destruct (ToString serverId) as [s|] eqn:Ts; [|discriminate].
  cbn [bind]. intros [= <-]. cbn. repeat split; try congruence.
  exists s. auto.
Qed.

Lemma remove_server_returns (serverId : value) :
  plain serverId = true -> exists a, remove_server serverId = Ok a.
Proof.
  intros H. unfold remove_server. destruct (ToString_plain _ H) as [s ->].
  destruct (truthy serverId); eexists; reflexivity.
Qed.

(** What the Kick / Ban block pushes. *)
Lemma kick_and_ban_spec (userId ctxServerId : value) (l : list action) :
  kick_and_ban userId ctxServerId = Ok l ->
  exists kick ban,
    l = [kick; ban]
    /\ label kick = "Kick from Server" /\ label ban = "Ban from Server"
    /\ enabled kick = enabled ban
    /\ (enabled kick = true
        <-> truthy userId = true /\ truthy ctxServerId = true)
    /\ (enabled kick = true ->
        method kick = Some "DELETE" /\ method ban = Some "PUT"
        /\ exists s u, ToString ctxServerId = Ok s /\ ToString userId = Ok u
             /\ path kick = Some ("/servers/" ++ s ++ "/members/" ++ u)
             /\ path ban = Some ("/servers/" ++ s ++ "/bans/" ++ u))
    /\ (enabled kick = false ->
        method kick = None /\ path kick = None
        /\ method ban = None /\ path ban = None).
Proof.
  unfold kick_and_ban.
  destruct (truthy userId) eqn:Eu, (truthy ctxServerId) eqn:Es; cbn [andb];
    try (intros [= <-]; eexists _, _; split; [reflexivity|]; cbn;
         intuition congruence).
  destruct (ToString ctxServerId) as [s|] eqn:Ts; [|discriminate].
  destruct (ToString userId) as [u|] eqn:Tu; [|discriminate].
  cbn [bind]. intros [= <-]. eexists _, _. split; [reflexivity|]. cbn.
  repeat split; try congruence. exists s, u. auto.
Qed.

Lemma kick_and_ban_returns (userId ctxServerId : value) :
  plain userId = true -> plain ctxServerId = true ->
  exists l, kick_and_ban userId ctxServerId = Ok l.
Proof.
  intros Hu Hs. unfold kick_and_ban.
  destruct (ToString_plain _ Hu) as [u ->], (ToString_plain _ Hs) as [s ->].
  destruct (truthy userId && truthy ctxServerId); eexists; reflexivity.
Qed.

(** ** [deriveActions] as a whole *)

(** Whenever [deriveActions] returns, it went through its blocks. *)
Lemma deriveActions_inv (report : value) (acts : list action) :
  deriveActions report = Ok acts ->
  exists channelId messageId serverId userId ctxServerId a1 a2 kick ban,
    resolved_channel_and_message report = Ok (channelId, messageId)
    /\ server_id report = Ok serverId
    /\ user_id report = Ok userId
    /\ resolved_ctx_server_id report = Ok ctxServerId
    /\ remove_message channelId messageId = Ok a1
    /\ remove_server serverId = Ok a2
    /\ kick_and_ban userId ctxServerId = Ok [kick; ban]
    /\ acts = [a1; a2; kick; ban].
Proof.
  unfold deriveActions, resolved_channel_and_message, resolved_ctx_server_id.
  destruct (channel_and_message _ _ _) as [[channelId messageId]|] eqn:E1;
    [|discriminate]. cbn [bind].
  destruct (remove_message channelId messageId) as [a1|] eqn:E2;
    [|discriminate]. cbn [bind].
  destruct (server_id report) as [serverId|] eqn:E3; [|discriminate].
  cbn [bind].
  destruct (remove_server serverId) as [a2|] eqn:E4; [|discriminate].
  cbn [bind].
  destruct (user_id report) as [userId|] eqn:E5; [|discriminate]. cbn [bind].
  destruct (ctx_server_id _) as [ctxServerId|] eqn:E6; [|discriminate].
  cbn [bind].
  destruct (kick_and_ban userId ctxServerId) as [l|] eqn:K; [|discriminate].
  cbn [bind]. intros [= <-].
  destruct (kick_and_ban_spec _ _ _ K) as (kick & ban & -> & _).
  exists channelId, messageId, serverId, userId, ctxServerId, a1, a2, kick, ban.
  repeat split; auto.
Qed.

(** On a report without a [null] snapshot entry or a [toString] key,
    [deriveActions] returns. *)
Lemma deriveActions_returns (report : value) :
  report_ok report = true -> exists acts, deriveActions report = Ok acts.
Proof.
  unfold report_ok. intros H. apply andb_prop in H as [Hentries Hplain].
  apply entries_ok_Forall in Hentries.
  assert (Hsnap : plain (snapshot_of report) = true)
    by (apply plain_coalesce; apply plain_opt_member, Hplain).
  pose proof (plain_entries _ Hsnap) as Hitems.
  unfold deriveActions.
  rewrite (channel_and_message_ok _ _ _ Hentries). cbn [bind].
  edestruct remove_message_returns as [a1 ->].
  { apply plain_channel_fallback; [exact Hplain|].
    apply plain_keep_last; [exact Hitems | reflexivity]. }
  { apply plain_keep_first; [exact Hitems|].
    apply plain_message_from_content, plain_content_of, Hplain. }
  cbn [bind].
  destruct (server_id_returns report) as (serverId & -> & Hs). cbn [bind].
  destruct (remove_server_returns _ (Hs Hplain)) as [a2 ->]. cbn [bind].
  destruct (user_id_returns report) as (userId & -> & Hu). cbn [bind].
  rewrite (ctx_server_id_ok _ Hentries). cbn [bind].
  edestruct kick_and_ban_returns as [l ->].
  { exact (Hu Hplain). }
  { apply plain_keep_last; [exact Hitems | reflexivity]. }
  cbn [bind]. eexists; reflexivity.
Qed.

(** A [null] entry in the snapshot array is the one way the first loop
    fails: reading [s.content] throws, and [deriveActions] with it. *)
Lemma for_of_scan_ids_null_entry (items : list value) (st : value * value) :
  forallb (fun s => negb (nullish s)) items = false ->
  for_of scan_ids items st = Throw TypeError.
Proof.
  revert st. induction items as [|s rest IH]; intros [channelId messageId];
    [discriminate|].
  cbn [forallb for_of]. destruct (nullish s) eqn:Hs; cbn [negb andb].
  - intros _. unfold scan_ids, member. rewrite Hs. reflexivity.
  - intros Hrest. rewrite (scan_ids_entry _ _ _ Hs). cbn [bind].
    apply IH, Hrest.
Qed.

Lemma deriveActions_null_entry (report : value) :
  snapshot_entries_ok report = false ->
  deriveActions report = Throw TypeError.
Proof.
  unfold snapshot_entries_ok, deriveActions, channel_and_message. intros H.
  rewrite message_from_content_ok. cbn [bind].
  destruct (snapshot_of report) as [| | | | |items|]; try discriminate H.
  cbn [truthy isArray andb entries] in *.
  rewrite (for_of_scan_ids_null_entry _ _ H). reflexivity.
Qed.

Lemma snapshot_of_snapshots (report : value) (items : list value) :
  opt_member report "snapshots" = VArr items ->
  snapshot_of report = VArr items.
Proof. unfold snapshot_of. intros ->. reflexivity. Qed.

(** ** Claims on [deriveActions] *)

(** C1 as stated does not hold.  On a report whose snapshot array names
    the channel "first" in its first entry and "second" in its second, the
    channel id [deriveActions] ends up with is "second": the later entry
    has replaced the earlier one, and the Remove Message path shows it. *)
Lemma C1_later_channel_replaces_earlier :
  opt_member report_two_channels "snapshots"
  = VArr [ entry_with "channel_id" (VStr "first");
           entry_with "channel_id" (VStr "second") ]
  /\ entry_field (entry_with "channel_id" (VStr "first")) "channel_id"
     = VStr "first"
  /\ resolved_channel_and_message report_two_channels
     = Ok (VStr "second", VStr "m1")
  /\ exists rest,
       deriveActions report_two_channels
       = Ok ({| label := "Remove Message"; enabled := true;
                method := Some "DELETE";
                path := Some "/channels/second/messages/m1" |} :: rest).
Proof.
  repeat split; try reflexivity. eexists. reflexivity.
Qed.

(** C1, amended: for every report whose [snapshots] field is an array
    without [null] entries, the channel id [deriveActions] resolves is the
    [content.channel_id] of the LAST entry that has one set: whatever
    earlier entries carry, the entry [s] wins as soon as no entry after
    it has a channel id. *)
Theorem C1_channel_id_last_entry_wins
    (report : value) (before after : list value) (s : value) :
  opt_member report "snapshots" = VArr (before ++ s :: after)%list ->
  Forall (fun x => nullish x = false) (before ++ s :: after)%list ->
  truthy (entry_field s "channel_id") = true ->
  Forall (fun x => truthy (entry_field x "channel_id") = false) after ->
  exists messageId,
    resolved_channel_and_message report
    = Ok (entry_field s "channel_id", messageId).
Proof.
  intros Hsnap Hnonnull Hs Hafter.
  apply snapshot_of_snapshots in Hsnap.
  unfold resolved_channel_and_message.
  rewrite channel_and_message_ok by (rewrite Hsnap; exact Hnonnull).
  rewrite Hsnap. cbn [entries].
  rewrite (keep_last_split _ _ _ _ _ Hs Hafter).
  unfold channel_fallback. rewrite Hs. eexists. reflexivity.
Qed.

Lemma C1_channel_id_last_entry_wins_witness :
  exists messageId,
    resolved_channel_and_message report_two_channels
    = Ok (VStr "second", messageId).
Proof.
  apply (C1_channel_id_last_entry_wins report_two_channels
           [entry_with "channel_id" (VStr "first")] []
           (entry_with "channel_id" (VStr "second"))).
  - reflexivity.
  - repeat constructor.
  - reflexivity.
  - constructor.
Defined.

Lemma disabled_unless (e a : bool) :
  (e = true <-> a = true) -> (e = false <-> a = false).
Proof. destruct e, a; intuition congruence. Qed.

Lemma disabled_unless_both (e a b : bool) :
  (e = true <-> a = true /\ b = true) ->
  (e = false <-> a = false \/ b = false).
Proof. destruct e, a, b; intuition congruence. Qed.

(** C2 as stated does not hold: on the empty report [deriveActions]
    returns a list of four actions, not five. *)
Lemma C2_four_actions_not_five :
  exists acts,
    deriveActions report_empty = Ok acts /\ List.length acts <> 5.
Proof.
  eexists. split; [reflexivity|]. cbn. discriminate.
Qed.

(** C2, amended: [deriveActions] returns on every report that has no
    [null] snapshot entry and no object with a [toString] key, and
    whenever it returns, the list has exactly 4 actions, labelled, in this
    order, Remove Message, Remove Server, Kick from Server, Ban from
    Server.  None is left out: each of the four is in the list whether or
    not its ids were resolved, enabled exactly when they were (both the
    message id and the channel id for Remove Message, the server id for
    Remove Server, both the user id and the context server id for Kick and
    for Ban), and disabled otherwise. *)
Theorem C2_exactly_four_actions_in_order (report : value) :
  (report_ok report = true -> exists acts, deriveActions report = Ok acts)
  /\ (forall acts,
        deriveActions report = Ok acts ->
        List.length acts = 4
        /\ map label acts
           = [ "Remove Message"; "Remove Server";
               "Kick from Server"; "Ban from Server" ]
        /\ exists channelId messageId serverId userId ctxServerId
                  removeMessage removeServer kick ban,
             resolved_channel_and_message report = Ok (channelId, messageId)
             /\ server_id report = Ok serverId
             /\ user_id report = Ok userId
             /\ resolved_ctx_server_id report = Ok ctxServerId
             /\ acts = [removeMessage; removeServer; kick; ban]
             /\ (enabled removeMessage = true
                 <-> truthy messageId = true /\ truthy channelId = true)
             /\ (enabled removeMessage = false
                 <-> truthy messageId = false \/ truthy channelId = false)
             /\ (enabled removeServer = true <-> truthy serverId = true)
             /\ (enabled removeServer = false <-> truthy serverId = false)
             /\ (enabled kick = true
                 <-> truthy userId = true /\ truthy ctxServerId = true)
             /\ (enabled kick = false
                 <-> truthy userId = false \/ truthy ctxServerId = false)
             /\ enabled ban = enabled kick).
Proof.
  split; [apply deriveActions_returns|].
  intros acts H.
  destruct (deriveActions_inv _ _ H)
    as (ch & msg & sid & uid & ctx & a1 & a2 & kick & ban
        & Hids & Hsid & Huid & Hctx & H1 & H2 & H34 & ->).
  apply remove_message_spec in H1 as (L1 & En1 & _).
  apply remove_server_spec in H2 as (L2 & En2 & _).
  apply kick_and_ban_spec in H34
    as (k & b & [= <- <-] & L3 & L4 & Eq & En3 & _).
  split; [reflexivity|].
  split; [cbn [map]; rewrite L1, L2, L3, L4; reflexivity|].
  exists ch, msg, sid, uid, ctx, a1, a2, kick, ban.
  split; [exact Hids|]. split; [exact Hsid|]. split; [exact Huid|].
  split; [exact Hctx|]. split; [reflexivity|].
  split; [exact En1|]. split; [apply disabled_unless_both, En1|].
  split; [exact En2|]. split; [apply disabled_unless, En2|].
  split; [exact En3|]. split; [apply disabled_unless_both, En3|].
  symmetry. exact Eq.
Qed.

Lemma C2_exactly_four_actions_in_order_witness :
  exists removeMessage removeServer kick ban,
    deriveActions report_two_servers
    = Ok [removeMessage; removeServer; kick; ban]
    /\ map label [removeMessage; removeServer; kick; ban]
       = [ "Remove Message"; "Remove Server";
           "Kick from Server"; "Ban from Server" ]
    /\ enabled removeMessage = false
    /\ enabled removeServer = false
    /\ enabled kick = true
    /\ enabled ban = true.
Proof.
  destruct (C2_exactly_four_actions_in_order report_two_servers) as [R S].
  destruct (R eq_refl) as [acts H].
  destruct (S acts H)
    as (_ & Hlabels & ch & msg & sid & uid & ctx & a1 & a2 & kick & ban
        & Hids & Hsid & Huid & Hctx & -> & _ & D1 & _ & D2 & E3 & _ & Eq).
  cbv in Hids, Hsid, Huid, Hctx.
  injection Hids as <- <-. injection Hsid as <-.
  injection Huid as <-. injection Hctx as <-.
  exists a1, a2, kick, ban.
  split; [exact H|]. split; [exact Hlabels|].
  split; [apply D1; right; reflexivity|].
  split; [apply D2; reflexivity|].
  assert (Ek : enabled kick = true) by (apply E3; split; reflexivity).
  split; [exact Ek | congruence].
Defined.

(** C3: for every report whose [snapshots] field is an array (without
    [null] entries, on which the loop throws), both scans complete, and
    - a message id taken from [content.Message.id] is never overridden;
    - otherwise the message id is the [content.message_id] of the FIRST
      entry that has one set, whatever later entries carry;
    - the context server id is the [content.server_id] of the LAST entry
      that has one set. *)
Theorem C3_message_first_server_last (report : value) (items : list value) :
  opt_member report "snapshots" = VArr items ->
  Forall (fun x => nullish x = false) items ->
  exists channelId messageId ctxServerId,
    resolved_channel_and_message report = Ok (channelId, messageId)
    /\ resolved_ctx_server_id report = Ok ctxServerId
    /\ (forall i,
          truthy (content_of report "Message" "message") = true ->
          get (content_of report "Message" "message") "id" = VStr i ->
          messageId = VStr i)
    /\ (forall before s after,
          items = (before ++ s :: after)%list ->
          truthy (content_of report "Message" "message")
          && (typeof (get (content_of report "Message" "message") "id")
              =? "string") = false ->
          Forall (fun x => truthy (entry_field x "message_id") = false)
                 before ->
          truthy (entry_field s "message_id") = true ->
          messageId = entry_field s "message_id")
    /\ (forall before s after,
          items = (before ++ s :: after)%list ->
          truthy (entry_field s "server_id") = true ->
          Forall (fun x => truthy (entry_field x "server_id") = false)
                 after ->
          ctxServerId = entry_field s "server_id").
Proof.
  intros Hsnap Hnonnull. apply snapshot_of_snapshots in Hsnap.
  unfold resolved_channel_and_message, resolved_ctx_server_id.
  rewrite channel_and_message_ok, ctx_server_id_ok
    by (rewrite Hsnap; exact Hnonnull).
  rewrite Hsnap. cbn [entries].
  eexists _, _, _. split; [reflexivity|]. split; [reflexivity|].
  repeat split.
  - intros i Ht Hi. unfold message_from_content.
    rewrite Ht, Hi. cbn [typeof andb]. change ("string" =? "string") with true.
    cbv iota. apply keep_first_found. reflexivity.
  - intros before s after -> Hnone Hbefore Hs.
    unfold message_from_content. rewrite Hnone.
    apply keep_first_split; auto.
  - intros before s after -> Hs Hafter.
    apply keep_last_split; auto.
Qed.

Lemma C3_message_first_server_last_witness :
  resolved_channel_and_message report_two_servers = Ok (VUndef, VStr "m1")
  /\ resolved_ctx_server_id report_two_servers = Ok (VStr "s2").
Proof.
  destruct (C3_message_first_server_last report_two_servers
              [ entry_with "message_id" (VStr "m1");
                entry_with "server_id" (VStr "s1");
                entry_with "message_id" (VStr "m2");
                entry_with "server_id" (VStr "s2") ])
    as (ch & msg & ctx & H1 & H2 & _ & Hfirst & Hlast).
  - reflexivity.
  - repeat constructor.
  - rewrite H1, H2.
    rewrite (Hfirst [] (entry_with "message_id" (VStr "m1"))
               [ entry_with "server_id" (VStr "s1");
                 entry_with "message_id" (VStr "m2");
                 entry_with "server_id" (VStr "s2") ]
               eq_refl eq_refl (Forall_nil _) eq_refl).
    rewrite (Hlast [ entry_with "message_id" (VStr "m1");
                     entry_with "server_id" (VStr "s1");
                     entry_with "message_id" (VStr "m2") ]
               (entry_with "server_id" (VStr "s2")) []
               eq_refl eq_refl (Forall_nil _)).
    cbv in H1.
    injection H1 as <- _. split; reflexivity.
Defined.

(** C4: [deriveActions] returns on every report without a [null]
    snapshot entry or a [toString] key; whenever it returns, its first
    action is Remove Message, enabled if and only if both the message id
    and the channel id it resolved are truthy.  Enabled, its method is
    DELETE and its path is [/channels/{channelId}/messages/{messageId}];
    otherwise it is in the list all the same, disabled, with no method
    and no path. *)
Theorem C4_remove_message (report : value) :
  (report_ok report = true -> exists acts, deriveActions report = Ok acts)
  /\ (forall acts,
        deriveActions report = Ok acts ->
        exists channelId messageId a rest,
          resolved_channel_and_message report = Ok (channelId, messageId)
          /\ acts = a :: rest
          /\ label a = "Remove Message"
          /\ (enabled a = true
              <-> truthy messageId = true /\ truthy channelId = true)
          /\ (enabled a = true ->
              method a = Some "DELETE"
              /\ exists c m,
                   ToString channelId = Ok c /\ ToString messageId = Ok m
                   /\ path a = Some ("/channels/" ++ c ++ "/messages/" ++ m))
          /\ (enabled a = false -> method a = None /\ path a = None)).
Proof.
  split; [apply deriveActions_returns|].
  intros acts H.
  destruct (deriveActions_inv _ _ H)
    as (ch & msg & sid & uid & ctx & a1 & a2 & kick & ban
        & Hids & _ & _ & _ & H1 & _ & _ & ->).
  exists ch, msg, a1, [a2; kick; ban].
  split; [exact Hids|]. split; [reflexivity|].
  apply remove_message_spec, H1.
Qed.

Lemma C4_remove_message_witness :
  exists a rest,
    deriveActions report_display_only = Ok (a :: rest)
    /\ enabled a = true
    /\ method a = Some "DELETE"
    /\ path a = Some "/channels/abc123/messages/m1".
Proof.
  destruct (C4_remove_message report_display_only) as [R S].
  destruct (R eq_refl) as [acts H].
  destruct (S acts H)
    as (ch & msg & a & rest & Hids & -> & _ & Hen & Hpath & _).
  cbv in Hids. injection Hids as <- <-.
  assert (En : enabled a = true) by (apply Hen; split; reflexivity).
  destruct (Hpath En) as (Hm & c & m & Hc & Hmsg & Hp).
  cbv in Hc, Hmsg. injection Hc as <-. injection Hmsg as <-.
  exists a, rest. repeat split; assumption.
Defined.

(** C8: for every report whose snapshot yields no channel id (no entry
    with [content.channel_id] set, or no snapshot array at all) and whose
    [target_display] is "reported in channel:abc123", the channel id
    [deriveActions] resolves is "abc123", found by the regular expression
    on [target_display]. *)
Theorem C8_channel_from_target_display (report : value) :
  snapshot_entries_ok report = true ->
  Forall (fun s => truthy (entry_field s "channel_id") = false)
         (entries (snapshot_of report)) ->
  opt_member report "target_display" = VStr "reported in channel:abc123" ->
  exists messageId,
    resolved_channel_and_message report = Ok (VStr "abc123", messageId).
Proof.
  intros Hok Hnone Hdisplay. apply entries_ok_Forall in Hok.
  unfold resolved_channel_and_message.
  rewrite (channel_and_message_ok _ _ _ Hok).
  rewrite (keep_last_unset _ _ _ Hnone).
  unfold channel_fallback. cbn [truthy]. rewrite Hdisplay.
  eexists. reflexivity.
Qed.

Lemma C8_channel_from_target_display_witness :
  exists messageId,
    resolved_channel_and_message report_display_only
    = Ok (VStr "abc123", messageId).
Proof.
  apply (C8_channel_from_target_display report_display_only).
  - reflexivity.
  - constructor.
  - reflexivity.
Defined.



(** ** Claims on the mutations, the queries and the signal *)

(** C5: [actionMutation] decides on the upper-cased method alone, so two
    spellings that upper-case alike are treated alike.  DELETE goes out as
    a DELETE on the given path, PUT and POST as a PUT or POST on the path
    with the given body, or with the empty object when the body is absent.
    Any other method makes it throw "Unsupported method" with no request
    made. *)
Theorem C5_action_mutation_dispatch
    (api : request -> result value) (toUpperCase : string -> string)
    (data : action_data) :
  let m := toUpperCase (data_method data) in
  let p := data_path data in
  (m = "DELETE" ->
   actionMutation api toUpperCase data = ([Request (DELETE p)], api (DELETE p)))
  /\ (m = "PUT" ->
      exists body,
        actionMutation api toUpperCase data
        = ([Request (PUT p body)], api (PUT p body))
        /\ (nullish (data_body data) = true -> body = VObj [])
        /\ (nullish (data_body data) = false -> body = data_body data))
  /\ (m = "POST" ->
      exists body,
        actionMutation api toUpperCase data
        = ([Request (POST p body)], api (POST p body))
        /\ (nullish (data_body data) = true -> body = VObj [])
        /\ (nullish (data_body data) = false -> body = data_body data))
  /\ (m <> "DELETE" -> m <> "PUT" -> m <> "POST" ->
      actionMutation api toUpperCase data
      = ([], Throw (Error "Unsupported method")))
  /\ (forall spelling,
        toUpperCase spelling = m ->
        actionMutation api toUpperCase
          {| data_method := spelling; data_path := p;
             data_body := data_body data |}
        = actionMutation api toUpperCase data).
Proof.
  cbv zeta. unfold actionMutation, call, coalesce.
  cbn [data_method data_path data_body].
  repeat split.
  - intros ->. reflexivity.
  - intros ->. cbn. eexists. split; [reflexivity|].
    destruct (nullish (data_body data)); split; congruence.
  - intros ->. cbn. eexists. split; [reflexivity|].
    destruct (nullish (data_body data)); split; congruence.
  - intros H1 H2 H3.
    apply String.eqb_neq in H1, H2, H3. rewrite H1, H2, H3. reflexivity.
  - intros spelling ->. reflexivity.
Qed.

Lemma C5_action_mutation_dispatch_witness :
  actionMutation (fun _ => Ok VNull) upper_ascii
    {| data_method := "patch"; data_path := "/servers/s1";
       data_body := VUndef |}
  = ([], Throw (Error "Unsupported method"))
  /\ actionMutation (fun _ => Ok VNull) upper_ascii
       {| data_method := "delete"; data_path := "/servers/s1";
          data_body := VUndef |}
     = ([Request (DELETE "/servers/s1")], Ok VNull)
  /\ exists body,
       actionMutation (fun _ => Ok VNull) upper_ascii
         {| data_method := "Put"; data_path := "/servers/s1/bans/u1";
            data_body := VUndef |}
       = ([Request (PUT "/servers/s1/bans/u1" body)], Ok VNull)
       /\ body = VObj [].
Proof.
  split; [|split].
  - destruct (C5_action_mutation_dispatch (fun _ => Ok VNull) upper_ascii
                {| data_method := "patch"; data_path := "/servers/s1";
                   data_body := VUndef |})
      as (_ & _ & _ & Hother & _).
    apply Hother; cbn; discriminate.
  - destruct (C5_action_mutation_dispatch (fun _ => Ok VNull) upper_ascii
                {| data_method := "delete"; data_path := "/servers/s1";
                   data_body := VUndef |})
      as (Hdelete & _).
    exact (Hdelete eq_refl).
  - destruct (C5_action_mutation_dispatch (fun _ => Ok VNull) upper_ascii
                {| data_method := "Put"; data_path := "/servers/s1/bans/u1";
                   data_body := VUndef |})
      as (_ & Hput & _).
    destruct (Hput eq_refl) as (body & H & Hdefault & _).
    exists body. split; [exact H | exact (Hdefault eq_refl)].
Defined.

(** C6: the strike flow takes as user id [content.User.id] when the report
    has one, [target_id] otherwise.  With a modal service that has
    [showError]: when that id is not resolved (it is falsy), the flow shows
    exactly one error notification, "No user id found for this report",
    and makes no request; when it is resolved, the first thing the flow does
    is POST [{user_id, reason}] to /safety/strikes, and that is its only
    request, followed by the success path or by the error notification. *)
Theorem C6_issue_strike
    (api : request -> result value) (ui : modals) (selectedReason : string)
    (report : value) :
  has_showError ui = true ->
  let fromContent :=
    opt_member (opt_member (opt_member report "content") "User") "id" in
  let userId := strike_user_id report in
  let strike :=
    POST "/safety/strikes"
         (VObj [("user_id", userId); ("reason", VStr selectedReason)]) in
  (nullish fromContent = false -> userId = fromContent)
  /\ (nullish fromContent = true -> userId = opt_member report "target_id")
  /\ (truthy userId = false ->
      issueStrikeFor api ui selectedReason report
      = ([ShowError (Error "No user id found for this report")], Ok tt))
  /\ (truthy userId = true ->
      (forall res,
         api strike = Ok res ->
         issueStrikeFor api ui selectedReason report
         = ((Request strike
             :: (if has_showSuccess ui
                 then [ShowSuccess "Strike issued"] else [])
             ++ [Refetch "safety_reports"; Refetch "safety_strikes"])%list,
            Ok tt))
      /\ (forall e,
            api strike = Throw e ->
            issueStrikeFor api ui selectedReason report
            = ([Request strike; ShowError e], Ok tt))).
Proof.
  intros Hui. cbv zeta. unfold issueStrikeFor, showError. rewrite Hui.
  split; [|split; [|split; [|intros Ht; rewrite Ht; split]]].
  - unfold strike_user_id, coalesce. intros ->. reflexivity.
  - unfold strike_user_id, coalesce. intros ->. reflexivity.
  - intros ->. reflexivity.
  - intros res Hres. cbn [negb]. unfold strikeMutation, call, showSuccess.
    rewrite Hres. destruct (has_showSuccess ui); reflexivity.
  - intros e He. cbn [negb]. unfold strikeMutation, call.
    rewrite He. reflexivity.
Qed.

Lemma C6_issue_strike_witness :
  issueStrikeFor (fun _ => Ok VNull)
    {| has_showError := true; has_showSuccess := true |} "spam" report_empty
  = ([ShowError (Error "No user id found for this report")], Ok tt)
  /\ issueStrikeFor (fun _ => Ok VNull)
       {| has_showError := true; has_showSuccess := true |} "spam"
       report_two_servers
     = ([ Request (POST "/safety/strikes"
                     (VObj [("user_id", VStr "u1"); ("reason", VStr "spam")]));
          ShowSuccess "Strike issued";
          Refetch "safety_reports"; Refetch "safety_strikes" ],
        Ok tt).
Proof.
  split.
  - apply (C6_issue_strike (fun _ => Ok VNull)
             {| has_showError := true; has_showSuccess := true |} "spam"
             report_empty eq_refl).
    reflexivity.
  - destruct (C6_issue_strike (fun _ => Ok VNull)
                {| has_showError := true; has_showSuccess := true |} "spam"
                report_two_servers eq_refl)
      as (_ & _ & _ & Hpost).
    destruct (Hpost eq_refl) as [Hok _].
    exact (Hok VNull eq_refl).
Defined.

(** C7 as stated does not hold: a response that is neither [null] nor a
    list is handed on as it is.  When the backend answers both GET requests
    with the object [{error: "nope"}], each query resolves to that object,
    which is not a list. *)
Lemma C7_response_that_is_no_list :
  reportsQuery (fun _ => Ok (VObj [("error", VStr "nope")]))
  = ([Request (GET "/safety/reports")], Ok (VObj [("error", VStr "nope")]))
  /\ strikesQuery (fun _ => Ok (VObj [("error", VStr "nope")]))
     = ([Request (GET "/safety/strikes")], Ok (VObj [("error", VStr "nope")]))
  /\ isArray (VObj [("error", VStr "nope")]) = false.
Proof. repeat split. Qed.

(** C7, amended: whatever the backend does with the two GET requests
    (answer, answer [null] or nothing, fail), each of the two queries
    resolves and never rejects.  It resolves to the empty list on every
    failure and to the response itself otherwise; so what it resolves to is
    a list exactly when the fetch failed or the response is a list. *)
Theorem C7_queries_never_fail (api : request -> result value) :
  exists reports strikes,
    reportsQuery api = ([Request (GET "/safety/reports")], Ok reports)
    /\ strikesQuery api = ([Request (GET "/safety/strikes")], Ok strikes)
    /\ (failed (api (GET "/safety/reports")) = true -> reports = VArr [])
    /\ (failed (api (GET "/safety/strikes")) = true -> strikes = VArr [])
    /\ (failed (api (GET "/safety/reports")) = false ->
        api (GET "/safety/reports") = Ok reports)
    /\ (failed (api (GET "/safety/strikes")) = false ->
        api (GET "/safety/strikes") = Ok strikes)
    /\ (isArray reports = true
        <-> failed (api (GET "/safety/reports")) = true
            \/ exists items, api (GET "/safety/reports") = Ok (VArr items))
    /\ (isArray strikes = true
        <-> failed (api (GET "/safety/strikes")) = true
            \/ exists items, api (GET "/safety/strikes") = Ok (VArr items)).
Proof.
  assert (one : forall path,
            exists v,
              Io.try_catch
                (res <~ call api (GET path) ;;
                 Io.ret (coalesce res (VArr [])))
                (fun _ => Io.ret (VArr []))
              = ([Request (GET path)], Ok v)
              /\ (failed (api (GET path)) = true -> v = VArr [])
              /\ (failed (api (GET path)) = false -> api (GET path) = Ok v)
              /\ (isArray v = true
                  <-> failed (api (GET path)) = true
                      \/ exists items, api (GET path) = Ok (VArr items))).
  { intros path. unfold call.
    destruct (api (GET path)) as [res|e];
      cbn [Io.try_catch Io.bind Io.ret app failed]; unfold coalesce.
    - destruct (nullish res) eqn:N; eexists; (split; [reflexivity|]);
        repeat split; try congruence; auto.
      intros Harr. right. destruct res; try discriminate Harr.
      eexists. reflexivity.
      intros [F | [items [= ->]]]; [discriminate F | reflexivity].
    - eexists. split; [reflexivity|].
      repeat split; try congruence; auto. }
  destruct (one "/safety/reports") as (reports & Hr & R1 & R2 & R3).
  destruct (one "/safety/strikes") as (strikes & Hs & S1 & S2 & S3).
  exists reports, strikes. unfold reportsQuery, strikesQuery.
  repeat (split; [assumption|]). assumption.
Qed.

Lemma C7_queries_never_fail_witness :
  reportsQuery (fun _ => Throw (Error "404"))
  = ([Request (GET "/safety/reports")], Ok (VArr []))
  /\ strikesQuery (fun _ => Throw (Error "404"))
     = ([Request (GET "/safety/strikes")], Ok (VArr [])).
Proof.
  destruct (C7_queries_never_fail (fun _ => Throw (Error "404")))
    as (reports & strikes & H1 & H2 & F1 & F2 & _).
  rewrite H1, H2, (F1 eq_refl), (F2 eq_refl). split; reflexivity.
Defined.

(** C9: the [expanded] state never shows more than one report: after any
    run of clicks, two ids that are both expanded are the same id, and a
    click on a report that is not expanded leaves that report as the only
    one expanded.  Clicking the JSON button of report B while a different
    report A is expanded puts B's id in place of A's, so that A is
    collapsed and B shown; clicking the button of the report that is
    expanded sets the state back to [null]. *)
Theorem C9_one_expanded_report :
  (forall ids a b,
     is_expanded (clicks ids) a = true ->
     is_expanded (clicks ids) b = true -> a = b)
  /\ (forall ids b,
        is_expanded (clicks ids) b = false ->
        clicks (ids ++ [b])%list = Some b)
  /\ (forall ids b,
        is_expanded (clicks ids) b = true ->
        clicks (ids ++ [b])%list = None)
  /\ (forall a b,
        a <> b ->
        setExpanded_click (Some a) b = Some b
        /\ is_expanded (setExpanded_click (Some a) b) a = false
        /\ is_expanded (setExpanded_click (Some a) b) b = true)
  /\ (forall a,
        is_expanded (Some a) a = true
        /\ setExpanded_click (Some a) a = None).
Proof.
  split; [|split; [|split; [|split]]].
  - intros ids a b. destruct (clicks ids) as [e|]; [|discriminate].
    cbn. intros Ha Hb. apply String.eqb_eq in Ha, Hb. congruence.
  - intros ids b H. unfold clicks. rewrite fold_left_app. cbn [fold_left].
    fold (clicks ids). unfold setExpanded_click. rewrite H. reflexivity.
  - intros ids b H. unfold clicks. rewrite fold_left_app. cbn [fold_left].
    fold (clicks ids). unfold setExpanded_click. rewrite H. reflexivity.
  - intros a b Hab. unfold setExpanded_click. cbn [is_expanded].
    assert (E : (a =? b) = false) by (apply String.eqb_neq, Hab).
    assert (E' : (b =? a) = false)
      by (apply String.eqb_neq; congruence).
    rewrite E. cbn [is_expanded]. rewrite E', String.eqb_refl. auto.
  - intros a. unfold setExpanded_click. cbn [is_expanded].
    rewrite String.eqb_refl. auto.
Qed.

Lemma C9_one_expanded_report_witness :
  clicks ["A"] = Some "A"
  /\ clicks ["A"; "B"] = Some "B"
  /\ is_expanded (clicks ["A"; "B"]) "A" = false
  /\ clicks ["A"; "B"; "B"] = None.
Proof.
  destruct C9_one_expanded_report as (_ & _ & _ & Hswitch & Hclose).
  assert (N : "A" <> "B") by discriminate.
  destruct (Hswitch "A" "B" N) as (H1 & H2 & _).
  destruct (Hclose "B") as (_ & H3).
  exact (conj eq_refl (conj H1 (conj H2 H3))).
Defined.

(** ** More on the channel pattern *)

Lemma literal_matches (lit kw rest : string) :
  upper_ascii kw = upper_ascii lit ->
  ChannelRegex.literal lit (kw ++ rest) = Some rest.
Proof.
  revert kw. induction lit as [|p lit IH]; intros [|c kw]; cbn;
    try discriminate; [reflexivity|].
  intros [= Hc Hk]. rewrite Hc, Ascii.eqb_refl. apply IH, Hk.
Qed.

Lemma literal_inv (lit s rest : string) :
  ChannelRegex.literal lit s = Some rest ->
  exists kw, s = kw ++ rest /\ upper_ascii kw = upper_ascii lit.
Proof.
  revert s. induction lit as [|p lit IH]; intros s; cbn.
  - intros [= ->]. exists "". split; reflexivity.
  - destruct s as [|c s]; [discriminate|].
    destruct (Ascii.eqb _ _) eqn:E; [|discriminate].
    apply Ascii.eqb_eq in E. intros H.
    destruct (IH _ H) as (kw & -> & Hk).
    exists (String c kw). split; [reflexivity|]. cbn. congruence.
Qed.

Lemma greedy_all_in (cls : ascii -> bool) (s : string) :
  all_in cls (ChannelRegex.greedy cls s) = true.
Proof.
  induction s as [|c s IH]; cbn; [reflexivity|].
  destruct (cls c) eqn:E; cbn; [rewrite E; exact IH | reflexivity].
Qed.

Lemma greedy_split (cls : ascii -> bool) (s : string) :
  exists post, s = ChannelRegex.greedy cls s ++ post /\ stops cls post = true.
Proof.
  induction s as [|c s (post & IH & Hpost)]; cbn.
  - exists "". split; reflexivity.
  - destruct (cls c) eqn:E.
    + exists post. split; [cbn; congruence | exact Hpost].
    + exists (String c s). split; [reflexivity|]. cbn. rewrite E. reflexivity.
Qed.

Lemma greedy_exact (cls : ascii -> bool) (g post : string) :
  all_in cls g = true -> stops cls post = true ->
  ChannelRegex.greedy cls (g ++ post) = g.
Proof.
  intros Hg Hpost. induction g as [|c g IH]; cbn in *.
  - destruct post as [|c post]; [reflexivity|]. cbn in *.
    destruct (cls c); [discriminate | reflexivity].
  - apply andb_prop in Hg as [Hc Hg]. rewrite Hc, (IH Hg). reflexivity.
Qed.

Lemma group1_inv (s g : string) :
  ChannelRegex.group1 s = Some g ->
  exists post, s = g ++ post /\ is_id_run g post.
Proof.
  unfold ChannelRegex.group1.
  destruct (greedy_split ChannelRegex.word_or_dash s) as (post & Hs & Hpost).
  pose proof (greedy_all_in ChannelRegex.word_or_dash s) as Hall.
  destruct (ChannelRegex.greedy ChannelRegex.word_or_dash s) as [|c g'];
    [discriminate|].
  intros [= <-]. exists post. split; [exact Hs|].
  repeat split; [discriminate | exact Hall | exact Hpost].
Qed.

Lemma group1_exact (g post : string) :
  is_id_run g post -> ChannelRegex.group1 (g ++ post) = Some g.
Proof.
  intros (Hne & Hall & Hpost). unfold ChannelRegex.group1.
  rewrite (greedy_exact _ _ _ Hall Hpost).
  destruct g; [contradiction | reflexivity].
Qed.

Lemma colon_or_slash_inv (c : ascii) :
  ChannelRegex.colon_or_slash c = true -> c = ":"%char \/ c = "/"%char.
Proof.
  unfold ChannelRegex.colon_or_slash, ChannelRegex.code. intros H.
  apply orb_prop in H as [H|H]; apply Nat.eqb_eq in H;
    rewrite <- (ascii_nat_embedding c), H; auto.
Qed.

Lemma word_not_separator (c : ascii) :
  ChannelRegex.word_or_dash c = true -> ChannelRegex.colon_or_slash c = false.
Proof.
  destruct (ChannelRegex.colon_or_slash c) eqn:E; [|reflexivity].
  destruct (colon_or_slash_inv _ E) as [-> | ->]; discriminate.
Qed.

Lemma match_here_sound (s g : string) :
  ChannelRegex.match_here s = Some g ->
  exists kw sep post,
    s = kw ++ sep ++ g ++ post
    /\ is_channel_keyword kw /\ is_separator sep /\ is_id_run g post.
Proof.
  unfold ChannelRegex.match_here.
  destruct (ChannelRegex.literal "channel" s) as [rest|] eqn:L; [|discriminate].
  destruct (literal_inv _ _ _ L) as (kw & -> & Hkw).
  assert (plainly : ChannelRegex.group1 rest = Some g ->
            exists kw0 sep post,
              kw ++ rest = kw0 ++ sep ++ g ++ post
              /\ is_channel_keyword kw0 /\ is_separator sep
              /\ is_id_run g post).
  { intros G. destruct (group1_inv _ _ G) as (post & -> & Hrun).
    exists kw, "", post. unfold is_separator. auto. }
  destruct rest as [|c rest']; [exact plainly|].
  destruct (ChannelRegex.colon_or_slash c) eqn:E; [|exact plainly].
  destruct (ChannelRegex.group1 rest') as [g'|] eqn:G; [|exact plainly].
  intros [= ->]. destruct (group1_inv _ _ G) as (post & -> & Hrun).
  exists kw, (String c ""), post. split; [reflexivity|].
  split; [exact Hkw|]. split; [|exact Hrun].
  unfold is_separator. destruct (colon_or_slash_inv _ E) as [-> | ->]; auto.
Qed.

Lemma match_here_exact (kw sep g post : string) :
  is_channel_keyword kw -> is_separator sep -> is_id_run g post ->
  ChannelRegex.match_here (kw ++ sep ++ g ++ post) = Some g.
Proof.
  intros Hkw Hsep Hrun. unfold ChannelRegex.match_here.
  rewrite (literal_matches "channel" kw _ Hkw).
  pose proof (group1_exact _ _ Hrun) as G.
  destruct Hsep as [-> | [-> | ->]]; cbn [append ChannelRegex.colon_or_slash];
    try (cbn; rewrite G; reflexivity).
  destruct Hrun as (Hne & Hall & _).
  destruct g as [|c g]; [contradiction|]. cbn [append] in *.
  cbn [all_in] in Hall. apply andb_prop in Hall as [Hc _].
  rewrite (word_not_separator _ Hc). exact G.
Qed.

Lemma exec_skips (pre s : string) :
  no_letter_c pre = true ->
  ChannelRegex.exec (pre ++ s) = ChannelRegex.exec s.
Proof.
  intros H. induction pre as [|c pre IH]; [reflexivity|].
  cbn [no_letter_c all_in] in H. apply andb_prop in H as [Hc Hpre].
  cbn [append ChannelRegex.exec].
  replace (ChannelRegex.match_here (String c (pre ++ s))) with (@None string).
  - apply IH, Hpre.
  - unfold ChannelRegex.match_here. cbn [ChannelRegex.literal].
    change (ChannelRegex.canonicalize "c") with "C"%char.
    rewrite Ascii.eqb_sym. apply negb_true_iff in Hc. rewrite Hc. reflexivity.
Qed.

Lemma exec_here (s g : string) :
  ChannelRegex.match_here s = Some g -> ChannelRegex.exec s = Some g.
Proof.
  intros H. destruct s; cbn [ChannelRegex.exec]; rewrite H; reflexivity.
Qed.

(** X1: whatever the pattern captures in a text is in the text: a run of
    letters, digits, underscores and dashes, not empty and not extensible,
    standing right after the word "channel" (in any case) and at most one
    colon or slash. *)
Theorem X1_captured_id_is_in_the_text (text g : string) :
  ChannelRegex.exec text = Some g ->
  exists pre kw sep post,
    text = pre ++ kw ++ sep ++ g ++ post
    /\ is_channel_keyword kw /\ is_separator sep /\ is_id_run g post.
Proof.
  induction text as [|c text IH]; cbn [ChannelRegex.exec].
  - destruct (ChannelRegex.match_here "") as [g'|] eqn:M; [|discriminate].
    intros [= ->]. destruct (match_here_sound _ _ M) as (kw & sep & post & H).
    exists "", kw, sep, post. exact H.
  - destruct (ChannelRegex.match_here (String c text)) as [g'|] eqn:M.
    + intros [= ->]. destruct (match_here_sound _ _ M) as (kw & sep & post & H).
      exists "", kw, sep, post. exact H.
    + intros H. destruct (IH H) as (pre & kw & sep & post & -> & Hrest).
      exists (String c pre), kw, sep, post. split; [reflexivity | exact Hrest].
Qed.

Lemma X1_captured_id_is_in_the_text_witness :
  exists pre kw sep post,
    "see #Channel/dev-ops, now" = pre ++ kw ++ sep ++ "dev-ops" ++ post
    /\ is_channel_keyword kw /\ is_separator sep /\ is_id_run "dev-ops" post.
Proof.
  apply (X1_captured_id_is_in_the_text "see #Channel/dev-ops, now" "dev-ops").
  reflexivity.
Defined.

(** X2: the pattern misses nothing: it finds a match in every text that
    has, somewhere, the word "channel" (in any case), then at most one
    colon or slash, then a run of letters, digits, underscores and dashes.
    So [match] returns [null] only for a text without such an occurrence. *)
Theorem X2_occurrence_is_found (pre kw sep g post : string) :
  is_channel_keyword kw -> is_separator sep -> is_id_run g post ->
  exists found, ChannelRegex.exec (pre ++ kw ++ sep ++ g ++ post) = Some found.
Proof.
  intros Hkw Hsep Hrun. induction pre as [|c pre IH].
  - exists g. cbn [append]. apply exec_here.
    apply (match_here_exact kw sep g post Hkw Hsep Hrun).
  - cbn [append ChannelRegex.exec].
    destruct (ChannelRegex.match_here _) as [g'|]; [exists g'; reflexivity|].
    exact IH.
Qed.

Lemma X2_occurrence_is_found_witness :
  exists found,
    ChannelRegex.exec "channels, then Channel:ops" = Some found.
Proof.
  apply (X2_occurrence_is_found "channels, then " "Channel" ":" "ops" "").
  - reflexivity.
  - right. left. reflexivity.
  - repeat split. discriminate.
Defined.

Lemma exec_exact (pre kw sep g post : string) :
  no_letter_c pre = true ->
  is_channel_keyword kw -> is_separator sep -> is_id_run g post ->
  ChannelRegex.exec (pre ++ kw ++ sep ++ g ++ post) = Some g.
Proof.
  intros Hpre Hkw Hsep Hrun. rewrite (exec_skips _ _ Hpre).
  apply exec_here, (match_here_exact kw sep g post Hkw Hsep Hrun).
Qed.

(** ** More on [deriveActions] *)

(** [deriveActions] gets through its first loop only when no snapshot
    entry is [null]. *)
Lemma resolved_entries_ok (report : value) (ids : value * value) :
  resolved_channel_and_message report = Ok ids ->
  snapshot_entries_ok report = true.
Proof.
  unfold snapshot_entries_ok, resolved_channel_and_message, channel_and_message.
  rewrite message_from_content_ok. cbn [bind]. intros H.
  destruct (forallb _ (entries (snapshot_of report))) eqn:F; [reflexivity|].
  destruct (snapshot_of report) as [| | | | |items|]; try discriminate F.
  cbn [truthy isArray andb entries] in *.
  rewrite (for_of_scan_ids_null_entry _ _ F) in H. discriminate H.
Qed.

(** What [deriveActions] has in [channelId] and [messageId], without the
    conditions under which it gets there. *)
Lemma resolved_closed_form (report : value) (channelId messageId : value) :
  resolved_channel_and_message report = Ok (channelId, messageId) ->
  channelId
  = channel_fallback report
      (fold_left (keep_last "channel_id") (entries (snapshot_of report)) VUndef)
  /\ messageId
     = fold_left (keep_first "message_id") (entries (snapshot_of report))
         (message_from_content (content_of report "Message" "message")).
Proof.
  intros H. pose proof (resolved_entries_ok _ _ H) as Hok.
  apply entries_ok_Forall in Hok.
  unfold resolved_channel_and_message in H.
  rewrite (channel_and_message_ok _ _ _ Hok) in H.
  injection H as <- <-. split; reflexivity.
Qed.

Lemma ToString_TypeError (v : value) (e : exn) :
  ToString v = Throw e -> e = TypeError.
Proof.
  revert e. induction v using value_induction; intros e; try discriminate.
  - induction H as [|x rest Hx Hrest IH]; [discriminate|].
    rewrite ToString_arr_cons.
    destruct (nullish x).
    + destruct rest; [discriminate|].
      destruct (ToString (VArr (v :: rest))) eqn:T; [discriminate|].
      intros [= <-]. apply IH. reflexivity.
    + destruct (ToString x) eqn:Tx.
      * destruct rest; [discriminate|].
        destruct (ToString (VArr (v :: rest))) eqn:T; [discriminate|].
        intros [= <-]. apply IH. reflexivity.
      * intros [= <-]. apply Hx. reflexivity.
  - cbn. destruct (lookup fields "toString"); [|discriminate].
    intros [= <-]. reflexivity.
Qed.

(** X3: when no snapshot entry names a channel, the channel id is read
    off [target_display]: for a text that has no letter c before the word
    "channel" (in any case), then at most one colon or slash, then an id made
    of letters, digits, underscores and dashes that ends the text or is
    followed by another character, the channel id is that id. *)
Theorem X3_channel_id_scraped_from_display
    (report : value) (pre kw sep id post : string) :
  snapshot_entries_ok report = true ->
  Forall (fun s => truthy (entry_field s "channel_id") = false)
         (entries (snapshot_of report)) ->
  opt_member report "target_display" = VStr (pre ++ kw ++ sep ++ id ++ post) ->
  no_letter_c pre = true ->
  is_channel_keyword kw -> is_separator sep -> is_id_run id post ->
  exists messageId,
    resolved_channel_and_message report = Ok (VStr id, messageId).
Proof.
  intros Hok Hnone Hdisplay Hpre Hkw Hsep Hrun.
  apply entries_ok_Forall in Hok.
  unfold resolved_channel_and_message.
  rewrite (channel_and_message_ok _ _ _ Hok).
  rewrite (keep_last_unset _ _ _ Hnone).
  unfold channel_fallback. cbn [truthy]. rewrite Hdisplay.
  rewrite (exec_exact _ _ _ _ _ Hpre Hkw Hsep Hrun).
  eexists. reflexivity.
Qed.

Lemma X3_channel_id_scraped_from_display_witness :
  exists messageId,
    resolved_channel_and_message
      (VObj [("target_display", VStr "Message in CHANNEL/dev_ops-2 (flagged)")])
    = Ok (VStr "dev_ops-2", messageId).
Proof.
  apply (X3_channel_id_scraped_from_display
           (VObj [("target_display",
                   VStr "Message in CHANNEL/dev_ops-2 (flagged)")])
           "Message in " "CHANNEL" "/" "dev_ops-2" " (flagged)").
  - reflexivity.
  - constructor.
  - reflexivity.
  - reflexivity.
  - reflexivity.
  - right. right. reflexivity.
  - repeat split. discriminate.
Defined.

(** X4: a report that names no channel, neither in a snapshot entry nor in
    a [target_display] the pattern matches, never gets Remove Message: the
    action is disabled whatever message id the report carries. *)
Theorem X4_no_channel_no_remove_message (report : value) (acts : list action) :
  deriveActions report = Ok acts ->
  Forall (fun s => truthy (entry_field s "channel_id") = false)
         (entries (snapshot_of report)) ->
  (forall text,
     opt_member report "target_display" = VStr text ->
     ChannelRegex.exec text = None) ->
  exists messageId a rest,
    resolved_channel_and_message report = Ok (VUndef, messageId)
    /\ acts = a :: rest
    /\ label a = "Remove Message"
    /\ enabled a = false /\ method a = None /\ path a = None.
Proof.
  intros H Hnone Hdisplay.
  destruct (deriveActions_inv _ _ H)
    as (ch & msg & sid & uid & ctx & a1 & a2 & kick & ban
        & Hids & _ & _ & _ & H1 & _ & _ & ->).
  destruct (resolved_closed_form _ _ _ Hids) as [Hch _].
  rewrite (keep_last_unset _ _ _ Hnone) in Hch.
  assert (ch = VUndef) as ->.
  { rewrite Hch. unfold channel_fallback. cbn [truthy].
    destruct (opt_member report "target_display") eqn:E; try reflexivity.
    rewrite (Hdisplay _ eq_refl). reflexivity. }
  exists msg, a1, [a2; kick; ban].
  split; [exact Hids|]. split; [reflexivity|].
  unfold remove_message in H1. cbn [truthy] in H1.
  rewrite andb_false_r in H1. injection H1 as <-. cbn. auto.
Qed.

Lemma X4_no_channel_no_remove_message_witness :
  exists a rest,
    deriveActions
      (VObj [ ("content", VObj [("Message", VObj [("id", VStr "m1")])]);
              ("target_display", VStr "user in #general") ])
    = Ok (a :: rest)
    /\ enabled a = false.
Proof.
  assert (R : exists acts,
            deriveActions
              (VObj [ ("content", VObj [("Message", VObj [("id", VStr "m1")])]);
                      ("target_display", VStr "user in #general") ])
            = Ok acts) by (eexists; reflexivity).
  destruct R as [acts R].
  destruct (X4_no_channel_no_remove_message _ _ R)
    as (m & a & rest & _ & -> & _ & En & _).
  - constructor.
  - intros text [= <-]. reflexivity.
  - exists a, rest. split; [exact R | exact En].
Defined.

(** X5: whenever [deriveActions] returns, its second action is Remove
    Server, enabled if and only if the server id it resolved is truthy; then
    its method is DELETE and its path [/servers/{serverId}], otherwise it
    has neither. *)
Theorem X5_remove_server (report : value) (acts : list action) :
  deriveActions report = Ok acts ->
  exists serverId first a rest,
    server_id report = Ok serverId
    /\ acts = first :: a :: rest
    /\ label a = "Remove Server"
    /\ (enabled a = true <-> truthy serverId = true)
    /\ (enabled a = true ->
        method a = Some "DELETE"
        /\ exists s, ToString serverId = Ok s
                     /\ path a = Some ("/servers/" ++ s))
    /\ (enabled a = false -> method a = None /\ path a = None).
Proof.
  intros H.
  destruct (deriveActions_inv _ _ H)
    as (ch & msg & sid & uid & ctx & a1 & a2 & kick & ban
        & _ & Hsid & _ & _ & _ & H2 & _ & ->).
  exists sid, a1, a2, [kick; ban].
  split; [exact Hsid|]. split; [reflexivity|].
  apply remove_server_spec, H2.
Qed.

Lemma X5_remove_server_witness :
  exists first a rest,
    deriveActions (VObj [("type", VStr "server"); ("target_id", VStr "s7")])
    = Ok (first :: a :: rest)
    /\ enabled a = true
    /\ method a = Some "DELETE" /\ path a = Some "/servers/s7".
Proof.
  assert (R : exists acts,
            deriveActions
              (VObj [("type", VStr "server"); ("target_id", VStr "s7")])
            = Ok acts) by (eexists; reflexivity).
  destruct R as [acts R].
  destruct (X5_remove_server _ _ R)
    as (sid & first & a & rest & Hsid & -> & _ & Hen & Hpath & _).
  cbv in Hsid. injection Hsid as <-.
  assert (En : enabled a = true) by (apply Hen; reflexivity).
  destruct (Hpath En) as (Hm & s & Hs & Hp).
  cbv in Hs. injection Hs as <-.
  exists first, a, rest. repeat split; assumption.
Defined.

(** X6: whenever [deriveActions] returns, its last two actions are Kick
    from Server and Ban from Server.  Both are enabled if and only if the
    user id and the context server id it resolved are truthy; then Kick is
    a DELETE on [/servers/{ctxServerId}/members/{userId}] and Ban a PUT on
    [/servers/{ctxServerId}/bans/{userId}], for the same server and the same
    user; otherwise both are disabled, without method or path. *)
Theorem X6_kick_and_ban (report : value) (acts : list action) :
  deriveActions report = Ok acts ->
  exists userId ctxServerId first second kick ban,
    user_id report = Ok userId
    /\ resolved_ctx_server_id report = Ok ctxServerId
    /\ acts = [first; second; kick; ban]
    /\ label kick = "Kick from Server" /\ label ban = "Ban from Server"
    /\ enabled kick = enabled ban
    /\ (enabled kick = true
        <-> truthy userId = true /\ truthy ctxServerId = true)
    /\ (enabled kick = true ->
        method kick = Some "DELETE" /\ method ban = Some "PUT"
        /\ exists s u,
             ToString ctxServerId = Ok s /\ ToString userId = Ok u
             /\ path kick = Some ("/servers/" ++ s ++ "/members/" ++ u)
             /\ path ban = Some ("/servers/" ++ s ++ "/bans/" ++ u))
    /\ (enabled kick = false ->
        method kick = None /\ path kick = None
        /\ method ban = None /\ path ban = None).
Proof.
  intros H.
  destruct (deriveActions_inv _ _ H)
    as (ch & msg & sid & uid & ctx & a1 & a2 & kick & ban
        & _ & _ & Huid & Hctx & _ & _ & H34 & ->).
  exists uid, ctx, a1, a2, kick, ban.
  split; [exact Huid|]. split; [exact Hctx|]. split; [reflexivity|].
  apply kick_and_ban_spec in H34 as (k & b & [= <- <-] & Hrest).
  exact Hrest.
Qed.

Lemma X6_kick_and_ban_witness :
  exists first second kick ban,
    deriveActions report_two_servers = Ok [first; second; kick; ban]
    /\ path kick = Some "/servers/s2/members/u1"
    /\ path ban = Some "/servers/s2/bans/u1".
Proof.
  assert (R : exists acts, deriveActions report_two_servers = Ok acts)
    by (eexists; reflexivity).
  destruct R as [acts R].
  destruct (X6_kick_and_ban _ _ R)
    as (uid & ctx & first & second & kick & ban
        & Huid & Hctx & -> & _ & _ & _ & Hen & Hpath & _).
  cbv in Huid, Hctx. injection Huid as <-. injection Hctx as <-.
  assert (En : enabled kick = true) by (apply Hen; split; reflexivity).
  destruct (Hpath En) as (_ & _ & s & u & Hs & Hu & Hk & Hb).
  cbv in Hs, Hu. injection Hs as <-. injection Hu as <-.
  exists first, second, kick, ban. repeat split; assumption.
Defined.

(** X7: resolving the server id and the user id never throws, whatever
    the report is ([null] and [undefined] included).  An id under the
    report's content wins as soon as it is not [null] or [undefined], even
    when it is falsy; only without one is [target_id] used, and only when
    the report's [type] is exactly "server" (for the server id, and
    [target_id] is truthy) or "user" (for the user id). *)
Theorem X7_server_and_user_id (report : value) :
  let fromServer := opt_member (content_of report "Server" "server") "id" in
  let fromUser := opt_member (content_of report "User" "user") "id" in
  let target := opt_member report "target_id" in
  let type := opt_member report "type" in
  exists serverId userId,
    server_id report = Ok serverId
    /\ user_id report = Ok userId
    /\ (nullish fromServer = false -> serverId = fromServer)
    /\ (nullish fromServer = true ->
        serverId
        = if truthy target && is_string type "server" then target else VUndef)
    /\ (nullish fromUser = false -> userId = fromUser)
    /\ (nullish fromUser = true ->
        userId = if is_string type "user" then target else VUndef).
Proof.
  cbv zeta. unfold server_id, user_id.
  destruct (nullish (opt_member (content_of report "Server" "server") "id"));
  destruct (nullish (opt_member (content_of report "User" "user") "id")).
  all: destruct (truthy (opt_member report "target_id")) eqn:Et;
    destruct (is_string (opt_member report "type") "server") eqn:Es;
    destruct (is_string (opt_member report "type") "user") eqn:Eu.
  all: try (assert (Hr : nullish report = false)
              by (first
                    [ eapply opt_member_source, truthy_not_nullish, Et
                    | apply (opt_member_source _ "type");
                      destruct (opt_member report "type");
                      first [ discriminate Es | discriminate Eu
                            | reflexivity ] ]);
            rewrite !(member_opt_member _ _ Hr); cbn [bind]; rewrite ?Es, ?Eu).
  all: cbn [andb]; eexists _, _; repeat split; try reflexivity;
    intros; try discriminate; reflexivity.
Qed.

Lemma X7_server_and_user_id_witness :
  server_id (VObj [ ("content", VObj [("Server", VObj [("id", VStr "")])]);
                    ("type", VStr "server"); ("target_id", VStr "s7") ])
  = Ok (VStr "")
  /\ user_id (VObj [("type", VStr "message"); ("target_id", VStr "m1")])
     = Ok VUndef.
Proof.
  split.
  - destruct (X7_server_and_user_id
                (VObj [ ("content", VObj [("Server", VObj [("id", VStr "")])]);
                        ("type", VStr "server"); ("target_id", VStr "s7") ]))
      as (sid & uid & -> & _ & Hs & _).
    rewrite (Hs eq_refl). reflexivity.
  - destruct (X7_server_and_user_id
                (VObj [("type", VStr "message"); ("target_id", VStr "m1")]))
      as (sid & uid & _ & -> & _ & _ & _ & Hu).
    rewrite (Hu eq_refl). reflexivity.
Defined.

(** X8: [deriveActions] fails in one way only, with a TypeError, and for
    two reasons only: a snapshot entry that is [null] or [undefined], which
    makes it fail always, or an object with a [toString] key somewhere in
    the report.  No action list is returned then, not even for the actions
    that do not depend on the snapshot. *)
Theorem X8_deriveActions_failures (report : value) :
  (snapshot_entries_ok report = false -> deriveActions report = Throw TypeError)
  /\ (forall e,
        deriveActions report = Throw e ->
        e = TypeError
        /\ (snapshot_entries_ok report = false \/ plain report = false)).
Proof.
  split; [apply deriveActions_null_entry|].
  intros e H. split.
  - destruct (snapshot_entries_ok report) eqn:Hok;
      [|rewrite (deriveActions_null_entry _ Hok) in H; congruence].
    apply entries_ok_Forall in Hok. unfold deriveActions in H.
    rewrite (channel_and_message_ok _ _ _ Hok) in H. cbn [bind] in H.
    rewrite (ctx_server_id_ok _ Hok) in H.
    destruct (server_id_returns report) as (sid & Hs & _).
    destruct (user_id_returns report) as (uid & Hu & _).
    rewrite Hs, Hu in H.
    unfold remove_message, remove_server, kick_and_ban in H.
    repeat match type of H with
           | context [if ?b then _ else _] => destruct b; cbn [bind] in H
           | context [bind (ToString ?v) _] =>
               let T := fresh "T" in
               destruct (ToString v) eqn:T; cbn [bind] in H;
               [|injection H as <-; exact (ToString_TypeError _ _ T)]
           end; discriminate H.
  - destruct (snapshot_entries_ok report) eqn:Hok; [|left; reflexivity].
    destruct (plain report) eqn:Hp; [|right; reflexivity].
    destruct (deriveActions_returns report) as [acts Hacts];
      [unfold report_ok; rewrite Hok, Hp; reflexivity | congruence].
Qed.

Lemma X8_deriveActions_failures_witness :
  deriveActions
    (VObj [ ("type", VStr "server"); ("target_id", VStr "s7");
            ("snapshots", VArr [entry_with "server_id" (VStr "s7"); VNull]) ])
  = Throw TypeError.
Proof.
  apply (X8_deriveActions_failures
           (VObj [ ("type", VStr "server"); ("target_id", VStr "s7");
                   ("snapshots",
                    VArr [entry_with "server_id" (VStr "s7"); VNull]) ])).
  reflexivity.
Defined.

(** X9: a report that is not an object ([null], [undefined], a boolean, a
    number, a string, an array) breaks nothing: [deriveActions] returns its
    four actions, all disabled, and the strike button only reports that no
    user id was found, without any request. *)
Theorem X9_report_that_is_no_object (report : value) :
  not_an_object report = true ->
  deriveActions report = Ok nothing_available
  /\ forall api ui selectedReason,
       issueStrikeFor api ui selectedReason report
       = ((if has_showError ui
           then [ShowError (Error "No user id found for this report")]
           else []),
          Ok tt).
Proof.
  intros H. destruct report; try discriminate H;
    (split; [reflexivity|]);
    intros api ui selectedReason; unfold issueStrikeFor, showError; cbn;
    destruct (has_showError ui); reflexivity.
Qed.

Lemma X9_report_that_is_no_object_witness :
  deriveActions (VStr "spam report") = Ok nothing_available
  /\ issueStrikeFor (fun _ => Ok VNull)
       {| has_showError := true; has_showSuccess := true |} "spam" VNull
     = ([ShowError (Error "No user id found for this report")], Ok tt).
Proof.
  split.
  - apply (X9_report_that_is_no_object (VStr "spam report") eq_refl).
  - destruct (X9_report_that_is_no_object VNull eq_refl) as [_ H].
    exact (H (fun _ => Ok VNull)
             {| has_showError := true; has_showSuccess := true |} "spam").
Defined.

Lemma get_unread (k key : string) (v : value) (fields : list (string * value)) :
  (k =? key) = false ->
  get (VObj ((k, v) :: fields)) key = get (VObj fields) key.
Proof. intros H. cbn. rewrite H. reflexivity. Qed.

(** X10: [deriveActions] looks at six properties of the report only:
    [content], [snapshots], [snapshot], [target_display], [target_id] and
    [type].  Setting any other property ([id], [reason], [created_at], ...)
    to any value leaves its result as it was. *)
Theorem X10_other_properties_are_ignored
    (k : string) (v : value) (fields : list (string * value)) :
  read_by_deriveActions k = false ->
  deriveActions (VObj ((k, v) :: fields)) = deriveActions (VObj fields).
Proof.
  unfold read_by_deriveActions. intros H.
  repeat (apply orb_false_elim in H as [H ?]).
  unfold deriveActions, content_of, snapshot_of, channel_and_message,
    server_id, user_id, content_of, opt_member, member.
  cbn [nullish]. rewrite !get_unread by assumption. reflexivity.
Qed.

Lemma X10_other_properties_are_ignored_witness :
  deriveActions
    (VObj [ ("id", VStr "r1"); ("type", VStr "server");
            ("target_id", VStr "s7") ])
  = deriveActions (VObj [("type", VStr "server"); ("target_id", VStr "s7")]).
Proof.
  apply (X10_other_properties_are_ignored "id" (VStr "r1")
           [("type", VStr "server"); ("target_id", VStr "s7")]).
  reflexivity.
Defined.

(** X11: an empty string as [content.Message.id] (or [content.message.id])
    counts as a message id found: no snapshot entry replaces it, and as it
    is falsy Remove Message stays disabled, even for a report whose
    snapshot names both a message and a channel. *)
Theorem X11_empty_message_id_blocks_remove_message
    (report : value) (acts : list action) :
  deriveActions report = Ok acts ->
  truthy (content_of report "Message" "message") = true ->
  get (content_of report "Message" "message") "id" = VStr "" ->
  exists channelId a rest,
    resolved_channel_and_message report = Ok (channelId, VStr "")
    /\ acts = a :: rest
    /\ label a = "Remove Message" /\ enabled a = false.
Proof.
  intros H Hmsg Hid.
  destruct (deriveActions_inv _ _ H)
    as (ch & msg & sid & uid & ctx & a1 & a2 & kick & ban
        & Hids & _ & _ & _ & H1 & _ & _ & ->).
  destruct (resolved_closed_form _ _ _ Hids) as [_ Hm].
  assert (msg = VStr "") as ->.
  { rewrite Hm. unfold message_from_content. rewrite Hmsg, Hid.
    apply keep_first_found. reflexivity. }
  exists ch, a1, [a2; kick; ban].
  split; [exact Hids|]. split; [reflexivity|].
  unfold remove_message in H1. cbn [truthy String.eqb negb andb] in H1.
  injection H1 as <-. split; reflexivity.
Qed.

Lemma X11_empty_message_id_blocks_remove_message_witness :
  exists a rest,
    deriveActions
      (VObj [ ("content", VObj [("Message", VObj [("id", VStr "")])]);
              ("snapshots", VArr [ entry_with "message_id" (VStr "m1");
                                   entry_with "channel_id" (VStr "c1") ]) ])
    = Ok (a :: rest)
    /\ enabled a = false.
Proof.
  assert (R : exists acts,
            deriveActions
              (VObj [ ("content", VObj [("Message", VObj [("id", VStr "")])]);
                      ("snapshots",
                       VArr [ entry_with "message_id" (VStr "m1");
                              entry_with "channel_id" (VStr "c1") ]) ])
            = Ok acts) by (eexists; reflexivity).
  destruct R as [acts R].
  destruct (X11_empty_message_id_blocks_remove_message _ _ R eq_refl eq_refl)
    as (ch & a & rest & _ & -> & _ & En).
  exists a, rest. split; [exact R | exact En].
Defined.

(** ** More on the handlers *)

(** What [actionMutation] does, case by case: one request and its
    outcome, or the refusal of a method it does not know. *)
Lemma actionMutation_cases
    (api : request -> result value) (toUpperCase : string -> string)
    (data : action_data) :
  actionMutation api toUpperCase data
  = ([], Throw (Error "Unsupported method"))
  /\ toUpperCase (data_method data) <> "DELETE"
  /\ toUpperCase (data_method data) <> "PUT"
  /\ toUpperCase (data_method data) <> "POST"
  \/ exists req,
       actionMutation api toUpperCase data = ([Request req], api req)
       /\ (toUpperCase (data_method data) = "DELETE"
           /\ req = DELETE (data_path data)
           \/ toUpperCase (data_method data) = "PUT"
              /\ req = PUT (data_path data)
                       (coalesce (data_body data) (VObj []))
           \/ toUpperCase (data_method data) = "POST"
              /\ req = POST (data_path data)
                        (coalesce (data_body data) (VObj []))).
Proof.
  unfold actionMutation, call.
  destruct (toUpperCase (data_method data) =? "DELETE") eqn:D.
  { apply String.eqb_eq in D. right. eexists. split; [reflexivity|]. auto. }
  destruct (toUpperCase (data_method data) =? "PUT") eqn:P.
  { apply String.eqb_eq in P. right. eexists. split; [reflexivity|]. auto. }
  destruct (toUpperCase (data_method data) =? "POST") eqn:O.
  { apply String.eqb_eq in O. right. eexists. split; [reflexivity|]. auto. }
  apply String.eqb_neq in D, P, O. left. auto.
Qed.

(** X12: [runAction] never rejects and makes at most one request.  With a
    method or a path that is absent or empty it makes none and only reports
    "Action not available"; with a method that [actionMutation] does not
    know it makes none either and reports "Unsupported method".  The two
    queries are refetched only after a request that the backend answered,
    and then both, once each. *)
Theorem X12_runAction_outcomes
    (api : request -> result value) (toUpperCase : string -> string)
    (ui : modals) (method path : option string) :
  exists t,
    runAction api toUpperCase ui method path = (t, Ok tt)
    /\ (List.length (requests t) <= 1)%nat
    /\ (method = None \/ method = Some "" \/ path = None \/ path = Some "" ->
        t = if has_showError ui
            then [ShowError (Error "Action not available")] else [])
    /\ (forall m p,
          method = Some m -> path = Some p -> m <> "" -> p <> "" ->
          toUpperCase m <> "DELETE" -> toUpperCase m <> "PUT" ->
          toUpperCase m <> "POST" ->
          t = if has_showError ui
              then [ShowError (Error "Unsupported method")] else [])
    /\ (refetched t = []
        \/ refetched t = ["safety_reports"; "safety_strikes"]
           /\ exists req res, requests t = [req] /\ api req = Ok res).
Proof.
  assert (refused : forall note,
            exists t,
              showError ui (Error note) = (t, Ok tt)
              /\ (t = if has_showError ui then [ShowError (Error note)] else [])
              /\ requests t = [] /\ refetched t = []).
  { intros note. unfold showError.
    destruct (has_showError ui); eexists; repeat split. }
  unfold runAction.
  destruct method as [m|], path as [p|];
    try (destruct (refused "Action not available") as (t & -> & -> & Hq & Hf);
         exists (if has_showError ui
                 then [ShowError (Error "Action not available")] else []);
         rewrite Hq, Hf; repeat split; auto; intros; discriminate).
  destruct (m =? "") eqn:Em; [|destruct (p =? "") eqn:Ep]; cbn [orb].
  1,2: destruct (refused "Action not available") as (t & -> & -> & Hq & Hf);
       exists (if has_showError ui
               then [ShowError (Error "Action not available")] else []);
       rewrite Hq, Hf; repeat split; auto;
       intros m' p' [= <-] [= <-] Hm Hp;
       first [apply String.eqb_eq in Em | apply String.eqb_eq in Ep];
       contradiction.
  apply String.eqb_neq in Em, Ep.
  assert (present : Some m = None \/ Some m = Some "" \/ Some p = None
                    \/ Some p = Some "" -> False)
    by (intros [H|[H|[H|H]]]; congruence).
  destruct (actionMutation_cases api toUpperCase
              {| data_method := m; data_path := p; data_body := VUndef |})
    as [(-> & Hd & Hp & Ho) | (req & -> & Hreq)];
    cbn [data_method data_path data_body] in *.
  - cbn [Io.bind Io.try_catch app].
    destruct (refused "Unsupported method") as (t & -> & -> & Hq & Hf).
    eexists. split; [reflexivity|]. rewrite Hq, Hf.
    repeat split; auto; intros; exfalso; auto.
  - unfold showSuccess, showError.
    destruct (api req) as [res|e] eqn:A;
      destruct (has_showSuccess ui), (has_showError ui);
      eexists; (split; [reflexivity|]); cbn;
      (split; [repeat constructor|]);
      (split; [intros H; destruct (present H)|]);
      (split;
       [ intros m' p' [= <-] [= <-] _ _ H1 H2 H3;
         destruct Hreq as [[H _]|[[H _]|[H _]]]; congruence |]);
      first [ left; reflexivity
            | right; split; [reflexivity|]; exists req, res; auto ].
Qed.

Lemma X12_runAction_outcomes_witness :
  runAction (fun _ => Ok VNull) upper_ascii
    {| has_showError := true; has_showSuccess := true |}
    (Some "PATCH") (Some "/servers/s7")
  = ([ShowError (Error "Unsupported method")], Ok tt)
  /\ runAction (fun _ => Ok VNull) upper_ascii
       {| has_showError := true; has_showSuccess := true |}
       (Some "DELETE") None
     = ([ShowError (Error "Action not available")], Ok tt).
Proof.
  split.
  - destruct (X12_runAction_outcomes (fun _ => Ok VNull) upper_ascii
                {| has_showError := true; has_showSuccess := true |}
                (Some "PATCH") (Some "/servers/s7"))
      as (t & -> & _ & _ & H & _).
    rewrite (H "PATCH" "/servers/s7" eq_refl eq_refl);
      [reflexivity | discriminate ..].
  - destruct (X12_runAction_outcomes (fun _ => Ok VNull) upper_ascii
                {| has_showError := true; has_showSuccess := true |}
                (Some "DELETE") None)
      as (t & -> & _ & H & _).
    rewrite H; [reflexivity | auto].
Defined.

(** Every action [deriveActions] returns is either disabled, without
    method and path, or enabled with a path that starts with a slash and
    the method DELETE, or PUT for Ban from Server. *)
Lemma derived_action_shape (report : value) (acts : list action) (a : action) :
  deriveActions report = Ok acts -> In a acts ->
  enabled a = false /\ method a = None /\ path a = None
  \/ enabled a = true
     /\ (exists tail, path a = Some (String "/" tail))
     /\ (method a = Some "DELETE"
         \/ method a = Some "PUT" /\ label a = "Ban from Server").
Proof.
  intros H Hin.
  destruct (deriveActions_inv _ _ H)
    as (ch & msg & sid & uid & ctx & a1 & a2 & kick & ban
        & _ & _ & _ & _ & H1 & H2 & H34 & ->).
  apply remove_message_spec in H1 as (_ & _ & E1 & D1).
  apply remove_server_spec in H2 as (_ & _ & E2 & D2).
  apply kick_and_ban_spec in H34
    as (k & b & [= <- <-] & _ & Lban & Eq & _ & E34 & D34).
  destruct Hin as [<-|[<-|[<-|[<-|[]]]]].
  - destruct (enabled a1) eqn:En; [right | left; destruct (D1 eq_refl); auto].
    destruct (E1 eq_refl) as (Hm & c & m & _ & _ & Hp).
    split; [reflexivity|]. split; [eexists; exact Hp | auto].
  - destruct (enabled a2) eqn:En; [right | left; destruct (D2 eq_refl); auto].
    destruct (E2 eq_refl) as (Hm & s & _ & Hp).
    split; [reflexivity|]. split; [eexists; exact Hp | auto].
  - destruct (enabled kick) eqn:En;
      [right | left; destruct (D34 eq_refl) as (? & ? & _); auto].
    destruct (E34 eq_refl) as (Hm & _ & s & u & _ & _ & Hp & _).
    split; [reflexivity|]. split; [eexists; exact Hp | auto].
  - rewrite <- Eq. destruct (enabled kick) eqn:En;
      [right | left; destruct (D34 eq_refl) as (_ & _ & ? & ?); auto].
    destruct (E34 eq_refl) as (_ & Hm & s & u & _ & _ & _ & Hp).
    split; [reflexivity|]. split; [eexists; exact Hp | auto].
Qed.

(** X13: the buttons and [runAction] fit together.  For every action that
    [deriveActions] returns, a click that reaches the handler does this: on
    a disabled action, it reports "Action not available" and requests
    nothing; on an enabled action, it makes exactly the request the action
    names, a DELETE on its path, or for Ban from Server a PUT on its path
    with the empty object as body, and never ends in "Unsupported method".
    If the backend answers, success is shown and both queries are
    refetched; if it fails, its error is shown and nothing is refetched. *)
Theorem X13_click_on_a_derived_action
    (api : request -> result value) (toUpperCase : string -> string)
    (ui : modals) (report : value) (acts : list action) (a : action) :
  toUpperCase "DELETE" = "DELETE" -> toUpperCase "PUT" = "PUT" ->
  deriveActions report = Ok acts -> In a acts ->
  (enabled a = false ->
   onClick_action api toUpperCase ui a
   = ((if has_showError ui
       then [ShowError (Error "Action not available")] else []),
      Ok tt))
  /\ (enabled a = true ->
      exists p req,
        path a = Some p
        /\ (method a = Some "DELETE" /\ req = DELETE p
            \/ method a = Some "PUT" /\ label a = "Ban from Server"
               /\ req = PUT p (VObj []))
        /\ (forall res,
              api req = Ok res ->
              onClick_action api toUpperCase ui a
              = ((Request req
                  :: (if has_showSuccess ui
                      then [ShowSuccess "Action completed"] else [])
                  ++ [Refetch "safety_reports"; Refetch "safety_strikes"])%list,
                 Ok tt))
        /\ (forall e,
              api req = Throw e ->
              onClick_action api toUpperCase ui a
              = ((Request req
                  :: (if has_showError ui then [ShowError e] else []))%list,
                 Ok tt))).
Proof.
  intros Hdelete Hput H Hin.
  unfold onClick_action, runAction.
  destruct (derived_action_shape _ _ _ H Hin)
    as [(En & -> & ->) | (En & [tail ->] & [-> | [-> Hban]])];
    rewrite En; (split; [intros E; try discriminate E | intros E;
                                                        try discriminate E]).
  - unfold showError. destruct (has_showError ui); reflexivity.
  - exists (String "/" tail), (DELETE (String "/" tail)).
    split; [reflexivity|]. split; [left; auto|].
    cbn [String.eqb Ascii.eqb orb]. unfold actionMutation, call.
    cbn [data_method data_path data_body]. rewrite Hdelete. cbn [String.eqb].
    change ("DELETE" =? "DELETE") with true. cbv iota.
    unfold showSuccess, showError.
    split; [intros res -> | intros e ->];
      destruct (has_showSuccess ui), (has_showError ui); reflexivity.
  - exists (String "/" tail), (PUT (String "/" tail) (VObj [])).
    split; [reflexivity|]. split; [right; auto|].
    cbn [String.eqb Ascii.eqb orb]. unfold actionMutation, call.
    cbn [data_method data_path data_body]. rewrite Hput.
    change ("PUT" =? "DELETE") with false.
    change ("PUT" =? "PUT") with true. cbv iota.
    change (coalesce VUndef (VObj [])) with (VObj []).
    unfold showSuccess, showError.
    split; [intros res -> | intros e ->];
      destruct (has_showSuccess ui), (has_showError ui); reflexivity.
Qed.

Lemma X13_click_on_a_derived_action_witness :
  exists first second kick ban,
    deriveActions report_two_servers = Ok [first; second; kick; ban]
    /\ onClick_action (fun _ => Ok VNull) upper_ascii
         {| has_showError := true; has_showSuccess := true |} ban
       = ([ Request (PUT "/servers/s2/bans/u1" (VObj []));
            ShowSuccess "Action completed";
            Refetch "safety_reports"; Refetch "safety_strikes" ],
          Ok tt)
    /\ onClick_action (fun _ => Ok VNull) upper_ascii
         {| has_showError := true; has_showSuccess := true |} first
       = ([ShowError (Error "Action not available")], Ok tt).
Proof.
  eexists _, _, _, _. split; [reflexivity|].
  pose (ui := {| has_showError := true; has_showSuccess := true |}).
  assert (R : exists acts, deriveActions report_two_servers = Ok acts)
    by (eexists; reflexivity).
  destruct R as [acts R]. pose proof R as Racts.
  cbv in Racts. injection Racts as <-.
  split.
  - destruct (X13_click_on_a_derived_action (fun _ => Ok VNull) upper_ascii ui
                report_two_servers _ _ eq_refl eq_refl R
                (or_intror (or_intror (or_intror (or_introl eq_refl)))))
      as [_ Hen].
    destruct (Hen eq_refl) as (p & req & Hp & Hreq & Hok & _).
    cbn [path] in Hp. injection Hp as <-.
    destruct Hreq as [[Hm _] | (_ & _ & ->)]; [discriminate Hm|].
    exact (Hok VNull eq_refl).
  - destruct (X13_click_on_a_derived_action (fun _ => Ok VNull) upper_ascii ui
                report_two_servers _ _ eq_refl eq_refl R
                (or_introl eq_refl))
      as [Hdis _].
    exact (Hdis eq_refl).
Defined.

(** X14: the strike flow never rejects, whatever the modal service
    offers and whatever the backend does.  It makes one request, the POST of
    the strike, exactly when a user id was resolved, and none otherwise; it
    refetches the two queries, once each, exactly when that request was
    answered; and the errors it shows are the missing user id or the error
    of the failed request, or nothing at all when the modal service has no
    [showError]. *)
Theorem X14_issueStrikeFor_outcomes
    (api : request -> result value) (ui : modals) (selectedReason : string)
    (report : value) :
  let userId := strike_user_id report in
  let strike :=
    POST "/safety/strikes"
         (VObj [("user_id", userId); ("reason", VStr selectedReason)]) in
  exists t,
    issueStrikeFor api ui selectedReason report = (t, Ok tt)
    /\ requests t = (if truthy userId then [strike] else [])
    /\ refetched t
       = (if truthy userId
          then match api strike with
               | Ok _ => ["safety_reports"; "safety_strikes"]
               | Throw _ => []
               end
          else [])
    /\ errors_shown t
       = (if has_showError ui
          then (if truthy userId
                then match api strike with
                     | Ok _ => []
                     | Throw e => [e]
                     end
                else [Error "No user id found for this report"])
          else []).
Proof.
  cbv zeta. unfold issueStrikeFor, strikeMutation, call, showError, showSuccess.
  destruct (truthy (strike_user_id report)); cbn [negb].
  - destruct (api _) as [res|e];
      destruct (has_showSuccess ui), (has_showError ui);
      eexists; repeat split.
  - destruct (has_showError ui); eexists; repeat split.
Qed.



(** X16: [formatDate] never throws.  For a date that is absent or empty
    it gives the empty string without consulting the clock; otherwise the
    local rendering of the date, and when rendering throws, the value it
    was given, unchanged. *)
Theorem X16_formatDate_outcomes
    (toLocaleString : value -> result string) (s : value) :
  exists shown,
    formatDate toLocaleString s = Ok shown
    /\ (truthy s = false -> shown = VStr "")
    /\ (truthy s = true ->
        forall d, toLocaleString s = Ok d -> shown = VStr d)
    /\ (truthy s = true ->
        forall e, toLocaleString s = Throw e -> shown = s).
Proof.
  unfold formatDate. destruct (truthy s) eqn:T.
  - destruct (toLocaleString s) as [d|e]; cbn [bind];
      eexists; (split; [reflexivity|]);
      repeat split; try discriminate; intros; try congruence.
    unfold coalesce. rewrite (truthy_not_nullish _ T). reflexivity.
  - eexists. split; [reflexivity|].
    repeat split; try discriminate; intros; congruence.
Qed.

Lemma X16_formatDate_outcomes_witness :
  formatDate (fun _ => Throw TypeError) (VStr "2024-13-45")
  = Ok (VStr "2024-13-45")
  /\ formatDate (fun _ => Throw TypeError) VUndef = Ok (VStr "").
Proof.
  split.
  - destruct (X16_formatDate_outcomes (fun _ => Throw TypeError)
                (VStr "2024-13-45"))
      as (shown & -> & _ & _ & H).
    rewrite (H eq_refl TypeError eq_refl). reflexivity.
  - destruct (X16_formatDate_outcomes (fun _ => Throw TypeError) VUndef)
      as (shown & -> & H & _).
    rewrite (H eq_refl). reflexivity.
Defined.
